(** * LoopringAPI: the response object model and the client's argument checks

    A shallow embedding of [loopring/order.py] and [loopring/client.py].

    - [py]      the fragment of Python the two modules run on: decoded JSON,
                exceptions, instances with a [__dict__], attribute access.
    - [helpers] [loopring/util/helpers.py], which the sources import.
    - [order]   [loopring/order.py].
    - [client]  [loopring/client.py].

    Instance dictionaries are finite maps; keyword mappings ([**data]) are
    association lists in insertion order, the order the constructors iterate
    them in. *)

From stdpp Require Import gmap strings list.
From Stdlib Require Import ZArith Ascii String.

Set Warnings "-register-all".
Open Scope string_scope.
Open Scope Z_scope.

(** ** The Python fragment *)
Module py.

(** What [json.loads] produces.  Numbers on the wire are integers
    (identifiers, counts, epoch timestamps); prices and amounts travel as
    decimal strings, so the model has no float. *)
Inductive json : Type :=
| JNull
| JBool (b : bool)
| JInt (n : Z)
| JStr (s : string)
| JList (l : list json)
| JObject (d : list (string * json)).

(** A keyword mapping, [**data]: keys in insertion order, each key once
    ([wf_dict] below). *)
Abbreviation kwargs := (list (string * json)).

(** A [dict] has each key once. *)
Definition wf_dict (d : kwargs) : Prop := NoDup d.*1.

(** The classes of [order.py]. *)
Inductive pyclass : Type :=
| Validity | Volume | Transfer | PartialOrder | Order | Ask | Bid | OrderBook.

#[global] Instance pyclass_eq_dec : EqDecision pyclass.
Proof. solve_decision. Defined.

(** [cls.__name__] *)
Definition class_name (c : pyclass) : string :=
  match c with
  | Validity => "Validity" | Volume => "Volume" | Transfer => "Transfer"
  | PartialOrder => "PartialOrder" | Order => "Order"
  | Ask => "Ask" | Bid => "Bid" | OrderBook => "OrderBook"
  end.

(** The argument of [datetime.fromtimestamp]: epoch seconds, or epoch
    milliseconds divided by 1000. *)
Inductive timestamp : Type :=
| Seconds (n : Z)
| Millis (n : Z).

(** The values an attribute can hold or an attribute read can return. *)
Inductive value : Type :=
| VJson (j : json)
| VDatetime (t : timestamp)
| VList (l : list value)
| VInstance (c : pyclass) (d : gmap string value)
| VClass (c : pyclass)
| VNamespace (d : gmap string value)
| VMember (owner : pyclass) (name : string).

(** An instance of a class of [order.py]: its class and its [__dict__]. *)
Record instance : Type := Instance { cls : pyclass; attrs : gmap string value }.

Definition to_value (o : instance) : value := VInstance (cls o) (attrs o).

(** [object.__new__(c)] *)
Definition new (c : pyclass) : instance := Instance c ∅.

Inductive exn : Type :=
| AttributeError (msg : string)
| TypeError (msg : string)
| ValueError (msg : string)
| KeyError (key : string)
| RuntimeError (msg : string)
| InvalidArguments (msg : string).

Definition is_AttributeError (e : exn) : bool :=
  match e with AttributeError _ => true | _ => false end.

(** The outcome of running code that may raise. *)
Inductive result (A : Type) : Type :=
| Ok (a : A)
| Raise (e : exn).
Arguments Ok {A} a.
Arguments Raise {A} e.

#[global] Instance result_ret : MRet result := λ A a, Ok a.
#[global] Instance result_bind : MBind result := λ A B f m,
  match m with Ok a => f a | Raise e => Raise e end.
#[global] Instance result_fmap : FMap result := λ A B f m,
  match m with Ok a => Ok (f a) | Raise e => Raise e end.

(** [r] is an exception of the [AttributeError] kind. *)
Definition raises_AttributeError {A} (r : result A) : Prop :=
  ∃ msg, r = Raise (AttributeError msg).

(** [for x in xs: s = body(x, s)], stopping at the first exception. *)
Fixpoint for_each {A S : Type} (body : A → S → result S) (xs : list A) (s : S)
  : result S :=
  match xs with
  | [] => Ok s
  | x :: xs' => s' ← body x s; for_each body xs' s'
  end.

(** [for x in xs: out.append(f(x))] *)
Fixpoint collect {A B : Type} (f : A → result B) (xs : list A) : result (list B) :=
  match xs with
  | [] => Ok []
  | x :: xs' => y ← f x; ys ← collect f xs'; Ok (y :: ys)
  end.

(** Truth value of a decoded JSON value, as [not x] and [x or y] test it. *)
Definition truthy (j : json) : bool :=
  match j with
  | JNull => false
  | JBool b => b
  | JInt n => negb (n =? 0)
  | JStr s => negb (String.eqb s "")
  | JList l => match l with [] => false | _ => true end
  | JObject d => match d with [] => false | _ => true end
  end.

(** [x or y] *)
Definition or_else (x y : json) : json := if truthy x then x else y.

(** [len(x)] on a value; the classes whose instances are stored in
    attributes define no [__len__]. *)
Definition len (v : value) : result Z :=
  match v with
  | VJson (JStr s) => Ok (Z.of_nat (String.length s))
  | VJson (JList l) => Ok (Z.of_nat (List.length l))
  | VJson (JObject d) => Ok (Z.of_nat (List.length d))
  | VList l => Ok (Z.of_nat (List.length l))
  | VNamespace d => Ok (Z.of_nat (size d))
  | _ => Raise (TypeError "object has no len()")
  end.

(** [d[key]] on a keyword mapping *)
Definition getitem (d : kwargs) (key : string) : result json :=
  match list_find (λ kv, String.eqb kv.1 key = true) d with
  | Some (_, (_, v)) => Ok v
  | None => Raise (KeyError key)
  end.

(** [x.get(key)]: only a [dict] has the method. *)
Definition dict_get (x : json) (key : string) : result json :=
  match x with
  | JObject d =>
      match getitem d key with Ok v => Ok v | Raise _ => Ok JNull end
  | _ => Raise (AttributeError "object has no attribute 'get'")
  end.

(** A call [f(self, **data)] with the instance in the first place: a key
    named [self] collides with the parameter. *)
Definition bind_keywords (data : kwargs) : result kwargs :=
  if bool_decide ("self" ∈ data.*1) then
    Raise (TypeError "got multiple values for argument 'self'")
  else Ok data.

(** [**x]: the argument must be a mapping. *)
Definition unpack_mapping (x : json) : result kwargs :=
  match x with
  | JObject d => Ok d
  | _ => Raise (TypeError "argument after ** must be a mapping")
  end.

(** The one-character strings of [s], what iterating a [str] yields. *)
Fixpoint chars (s : string) : list json :=
  match s with
  | EmptyString => []
  | String c s' => JStr (String c EmptyString) :: chars s'
  end.

(** [for a in x] and [*x]: the items an iteration over [x] yields. *)
Definition iterate (x : json) : result (list json) :=
  match x with
  | JList l => Ok l
  | JStr s => Ok (chars s)
  | JObject d => Ok (JStr <$> d.*1)
  | _ => Raise (TypeError "object is not iterable")
  end.

(** *** [int(x)] *)

(** A [str] is the sequence of its code points; a [string] holds one code
    point per character, so the model has the strings whose code points are
    below 256. *)

Definition is_digit (c : ascii) : bool :=
  let n := N_of_ascii c in ((48 <=? n) && (n <=? 57))%N.

Definition digit_val (c : ascii) : Z := Z.of_N (N_of_ascii c) - 48.

(** The white space [int] skips at both ends of the literal: tab, line
    feed, vertical tab, form feed, carriage return and space. *)
Definition is_space (c : ascii) : bool :=
  let n := N_of_ascii c in (((9 <=? n) && (n <=? 13)) || (n =? 32))%N.

Fixpoint is_ascii (s : string) : bool :=
  match s with
  | String c rest => (N_of_ascii c <? 128)%N && is_ascii rest
  | EmptyString => true
  end.

(** What [int] parses in place of a [str] that is not all ASCII: a code
    point below 127 stays; from 127 up, Unicode white space (U+0085 and
    U+00A0, below 256) becomes a space; no other code point below 256 is a
    decimal digit, so the first of them becomes [?] and ends the string. *)
Fixpoint decimal_and_space_to_ascii (s : string) : string :=
  match s with
  | String c rest =>
      let n := N_of_ascii c in
      if (n <? 127)%N then String c (decimal_and_space_to_ascii rest)
      else if ((n =? 133) || (n =? 160))%N then
        String " " (decimal_and_space_to_ascii rest)
      else String "?" EmptyString
  | EmptyString => EmptyString
  end.

Definition to_parse (s : string) : string :=
  if is_ascii s then s else decimal_and_space_to_ascii s.

Fixpoint lstrip (s : string) : string :=
  match s with
  | String c rest => if is_space c then lstrip rest else s
  | EmptyString => EmptyString
  end.

(** The scan of the digits: their value, how many there are, and what
    follows them.  A single underscore may separate two digits; [None]
    where one is doubled or is not followed by a digit. *)
Fixpoint scan_digits (acc : Z) (digits : nat) (after_underscore : bool)
    (s : string) : option (Z * nat * string) :=
  match s with
  | String c rest =>
      if is_digit c then
        scan_digits (10 * acc + digit_val c) (S digits) false rest
      else if Ascii.eqb c "_" then
        if after_underscore then None else scan_digits acc digits true rest
      else if after_underscore then None
      else Some (acc, digits, s)
  | EmptyString =>
      if after_underscore then None else Some (acc, digits, s)
  end.

(** [sys.int_info.default_max_str_digits], the limit in force unless the
    interpreter is told otherwise. *)
Definition max_str_digits : nat := 4300.

Definition invalid_literal : exn :=
  ValueError "invalid literal for int() with base 10".

Definition too_many_digits : exn :=
  ValueError "Exceeds the limit (4300 digits) for integer string conversion".

(** The literal after its sign: no leading underscore, the digits, the
    limit on their number, at least one digit, and nothing but white space
    after them. *)
Definition int_unsigned (s : string) : result Z :=
  match s with
  | String "_" _ => Raise invalid_literal
  | _ =>
      match scan_digits 0 0%nat false s with
      | None => Raise invalid_literal
      | Some (n, digits, rest) =>
          if (max_str_digits <? digits)%nat then
            Raise too_many_digits
          else if (digits =? 0)%nat then Raise invalid_literal
          else
            match lstrip rest with
            | EmptyString => Ok n
            | _ => Raise invalid_literal
            end
      end
  end.

Definition int_signed (s : string) : result Z :=
  match s with
  | String "-" rest => Z.opp <$> int_unsigned rest
  | String "+" rest => int_unsigned rest
  | _ => int_unsigned s
  end.

(** [int(s)] on a [str], base 10 *)
Definition int_of_string (s : string) : result Z :=
  int_signed (lstrip (to_parse s)).

(** [int(x)] *)
Definition int (x : json) : result Z :=
  match x with
  | JInt n => Ok n
  | JBool b => Ok (if b then 1 else 0)
  | JStr s => int_of_string s
  | _ => Raise (TypeError "int() argument must be a string or a number")
  end.

(** *** [datetime.fromtimestamp] *)

(** Epoch seconds of 0001-01-01 and of the last second of 9999-12-31. *)
Definition min_epoch : Z := -62135596800.
Definition max_epoch : Z := 253402300799.

Definition epoch_seconds (t : timestamp) : Z :=
  match t with Seconds n => n | Millis n => n `div` 1000 end.

Definition in_datetime_range (t : timestamp) : bool :=
  (min_epoch <=? epoch_seconds t) && (epoch_seconds t <=? max_epoch).

Definition datetime_of (t : timestamp) : result value :=
  if in_datetime_range t then Ok (VDatetime t)
  else Raise (ValueError "year is out of range").

(** [datetime.fromtimestamp(x)], [x] in seconds *)
Definition fromtimestamp (x : json) : result value :=
  match x with
  | JInt n => datetime_of (Seconds n)
  | JBool b => datetime_of (Seconds (if b then 1 else 0))
  | _ => Raise (TypeError "an integer is required")
  end.

(** [datetime.fromtimestamp(x / 1000)], [x] in milliseconds *)
Definition fromtimestamp_ms (x : json) : result value :=
  match x with
  | JInt n => datetime_of (Millis n)
  | JBool b => datetime_of (Millis (if b then 1 else 0))
  | _ => Raise (TypeError "unsupported operand type(s) for /")
  end.

End py.

(** ** [loopring/util/helpers.py] *)
Module helpers.

Definition is_upper (c : ascii) : bool :=
  let n := N_of_ascii c in ((65 <=? n) && (n <=? 90))%N.

Definition lower (c : ascii) : ascii :=
  if is_upper c then ascii_of_N (N_of_ascii c + 32) else c.

(** Every capital after the first character opens a new word. *)
Fixpoint snake_tail (s : string) : string :=
  match s with
  | EmptyString => EmptyString
  | String c rest =>
      if is_upper c then String "_" (String (lower c) (snake_tail rest))
      else String c (snake_tail rest)
  end.

(** Modelled from the spec: [to_snake_case] of [loopring/util/helpers.py],
    which [order.py] imports and which is not among the sources.  The spec
    gives it as the pure function from a camelCase wire field name to the
    snake_case attribute name, with [orderHash] giving [order_hash] and
    [accountId] giving [account_id]: each capital becomes an underscore and
    its lower-case letter, and no underscore is put before the first
    character. *)
Definition to_snake_case (s : string) : string :=
  match s with
  | EmptyString => EmptyString
  | String c rest => String (lower c) (snake_tail rest)
  end.

(** The wire field names of the API: the request parameters and response
    keys [client.py] and [order.py] spell out, and the camelCase names of
    the attributes the classes of [order.py] declare. *)
Definition wire_fields : list string :=
  [ "accountId"; "end"; "limit"; "market"; "offset"; "orderTypes"; "side";
    "start"; "status"; "tradeChannels"; "sellTokenId"; "orderHash";
    "orders"; "timestamp"; "orderId"; "offchainId"; "resultInfo";
    "hash"; "isIdempotent"; "clientOrderId"; "orderType"; "price";
    "tradeChannel"; "validity"; "volumes";
    "baseAmount"; "baseFilled"; "fee"; "quoteAmount"; "quoteFilled";
    "asks"; "bids"; "version" ].

(** A camelCase identifier: no underscore, and no capital in front. *)
Fixpoint no_underscore (s : string) : bool :=
  match s with
  | EmptyString => true
  | String c rest => negb (Ascii.eqb c "_") && no_underscore rest
  end.

Definition camel (s : string) : bool :=
  match s with
  | EmptyString => true
  | String c rest => negb (is_upper c) && no_underscore s
  end.

End helpers.

(** ** [loopring/order.py] *)
Module order.
Import py.

(** *** Classes and attribute access *)

(** The base of [Ask] and [Bid]. *)
Inductive class_body : Type :=
| Body (c : pyclass)
| _OrderBookOrder
| object.

(** The method resolution order of a class. *)
Definition mro (c : pyclass) : list class_body :=
  match c with
  | PartialOrder => [Body PartialOrder; Body Transfer; object]
  | Order => [Body Order; Body PartialOrder; Body Transfer; object]
  | Ask => [Body Ask; _OrderBookOrder; object]
  | Bid => [Body Bid; _OrderBookOrder; object]
  | c => [Body c; object]
  end.

(** The names a class body binds.  An annotation such as [hash: str] binds
    nothing. *)
Definition own_names (b : class_body) : list string :=
  match b with
  | Body Validity | Body Volume =>
      ["__init__"; "__repr__"; "__annotations__"; "__module__"; "__doc__"]
  | Body Transfer | _OrderBookOrder =>
      ["__init__"; "__repr__"; "__str__"; "__annotations__"; "__module__";
       "__doc__"]
  | Body PartialOrder =>
      ["__init__"; "__repr__"; "__str__"; "_is_error"; "json";
       "__annotations__"; "__module__"; "__doc__"]
  | Body Order =>
      ["__getattribute__"; "__init__"; "__repr__"; "__annotations__";
       "__module__"; "__doc__"]
  | Body Ask | Body Bid => ["__module__"; "__doc__"]
  | Body OrderBook =>
      ["__init__"; "__len__"; "__repr__"; "__str__"; "__annotations__";
       "__module__"; "__doc__"]
  | object =>
      ["__class__"; "__delattr__"; "__dir__"; "__doc__"; "__eq__";
       "__format__"; "__ge__"; "__getattribute__"; "__gt__"; "__hash__";
       "__init__"; "__init_subclass__"; "__le__"; "__lt__"; "__ne__";
       "__new__"; "__reduce__"; "__reduce_ex__"; "__repr__"; "__setattr__";
       "__sizeof__"; "__str__"; "__subclasshook__"]
  end.

(** [name] is found on the type of an instance of [c]. *)
Definition type_has (c : pyclass) (name : string) : bool :=
  bool_decide (Exists (λ b, name ∈ own_names b) (mro c)).

(** The descriptors that take precedence over the instance dictionary: the
    slots every instance has, and the one [@property] of the module. *)
Inductive descriptor : Type :=
| slot_class
| slot_dict
| slot_weakref
| property_json.

(** [PartialOrder] declares the property [json]; [Order] inherits it. *)
Definition has_json (c : pyclass) : bool :=
  match c with PartialOrder | Order => true | _ => false end.

Definition data_descriptor (c : pyclass) (name : string) : option descriptor :=
  if decide (name = "__class__") then Some slot_class
  else if decide (name = "__dict__") then Some slot_dict
  else if decide (name = "__weakref__") then Some slot_weakref
  else if decide (name = "json") then
    if has_json c then Some property_json else None
  else None.

(** The raw mapping a constructor keeps, under the mangled name of
    [self.__json]. *)
Definition raw_slot : string := "_PartialOrder__json".

Definition no_attribute (c : pyclass) (name : string) : exn :=
  AttributeError
    ("'" +:+ class_name c +:+ "' object has no attribute '" +:+ name +:+ "'").

(** The instance dictionary, then the rest of the type. *)
Definition instance_or_type_attr (self : instance) (name : string)
  : result value :=
  match attrs self !! name with
  | Some v => Ok v
  | None =>
      if type_has (cls self) name then Ok (VMember (cls self) name)
      else Raise (no_attribute (cls self) name)
  end.

(** [object.__getattribute__].  The getter of [json] is [return self.__json],
    a read of [raw_slot], which no descriptor binds. *)
Definition object_getattribute (self : instance) (name : string)
  : result value :=
  match data_descriptor (cls self) name with
  | Some slot_class => Ok (VClass (cls self))
  | Some slot_dict => Ok (VNamespace (attrs self))
  | Some slot_weakref => Ok (VJson JNull)
  | Some property_json => instance_or_type_attr self raw_slot
  | None => instance_or_type_attr self name
  end.

(** [Order.__getattribute__] *)
Definition Order_getattribute (self : instance) (__name : string)
  : result value :=
  if decide (__name = "is_idempotent") then
    Raise (AttributeError
             ("type object 'Order' has no attribute '" +:+ __name +:+ "'"))
  else object_getattribute self __name.

(** [getattr(self, name)], [self.name]: the [__getattribute__] of the type. *)
Definition getattr (self : instance) (name : string) : result value :=
  match cls self with
  | Order => Order_getattribute self name
  | _ => object_getattribute self name
  end.

(** [hasattr(self, name)]: only [AttributeError] means no. *)
Definition hasattr (self : instance) (name : string) : result bool :=
  match getattr self name with
  | Ok _ => Ok true
  | Raise e => if is_AttributeError e then Ok false else Raise e
  end.

(** The attributes of a keyword mapping as an instance dictionary. *)
Definition namespace_of (d : kwargs) : gmap string value :=
  list_to_map (prod_map id VJson <$> d).

(** [setattr(self, name, v)], [self.name = v]: no class of the module
    defines [__setattr__], so [object.__setattr__] runs.  [json] is a
    property without a setter; [__class__] takes a class, [__dict__] a
    [dict], and [__weakref__] nothing.

    An assignment to [__dict__] leaves the instance with the entries of the
    mapping assigned.  Python makes that mapping object itself the instance
    dictionary, so that what is assigned afterwards is also seen through
    the mapping, and comes back when the same object is assigned again; the
    model has values, not objects, and follows the program up to this
    assignment only.  The properties that read attributes are stated for
    mappings with no key normalised to [__dict__]. *)
Definition setattr (self : instance) (name : string) (v : value)
  : result instance :=
  match data_descriptor (cls self) name with
  | Some slot_class =>
      Raise (TypeError "__class__ must be set to a class")
  | Some slot_dict =>
      match v with
      | VJson (JObject d) => Ok (Instance (cls self) (namespace_of d))
      | _ => Raise (TypeError "__dict__ must be set to a dictionary")
      end
  | Some slot_weakref =>
      Raise (AttributeError "attribute '__weakref__' is not writable")
  | Some property_json => Raise (AttributeError "can't set attribute")
  | None => Ok (Instance (cls self) (<[name := v]> (attrs self)))
  end.

(** The fields a class body annotates. *)
Definition annotations (b : class_body) : list string :=
  match b with
  | Body Validity => ["end"; "start"]
  | Body Volume =>
      ["base_amount"; "base_filled"; "fee"; "quote_amount"; "quote_filled"]
  | Body Transfer => ["hash"; "is_idempotent"; "status"]
  | Body PartialOrder => ["client_order_id"; "hash"; "is_idempotent"; "status"]
  | Body Order =>
      ["client_order_id"; "hash"; "market"; "order_type"; "price"; "side";
       "status"; "trade_channel"; "validity"; "volumes"]
  | _OrderBookOrder => ["price"; "quantity"; "size"; "volume"]
  | Body OrderBook => ["asks"; "bids"; "market"; "timestamp"; "version"]
  | Body Ask | Body Bid | object => []
  end.

(** The typed fields of an instance of [c]: what its class and the bases
    annotate. *)
Definition typed_fields (c : pyclass) : list string :=
  mro c ≫= annotations.

(** The call [C( **data)]: a new instance, then [C.__init__] on it with the
    keywords.  The calls [super().__init__( **data)] inside pass the same
    keywords again. *)
Definition construct (c : pyclass)
    (init : instance → kwargs → result instance) (data : kwargs)
  : result instance :=
  data ← bind_keywords data;
  init (new c) data.

Section classes.

(** The two functions [order.py] imports from [util/helpers.py]. *)
Variable to_snake_case : string → string.
Variable auto_repr : instance → result string.

(** *** [Validity] *)
Definition Validity_init (self : instance) (data : kwargs) : result instance :=
  for_each (λ '(k, x) self, t ← fromtimestamp x; setattr self k t) data self.

(** *** [Volume] *)
Definition Volume_init (self : instance) (data : kwargs) : result instance :=
  for_each (λ '(k, x) self, setattr self (to_snake_case k) (VJson x))
    data self.

(** *** [Transfer] *)
Definition Transfer_init (self : instance) (data : kwargs) : result instance :=
  for_each (λ '(k, x) self, setattr self (to_snake_case k) (VJson x))
    data self.

Definition Transfer_repr (self : instance) : result string := auto_repr self.

Definition Transfer_str (self : instance) : result value := getattr self "hash".

(** *** [PartialOrder] *)

(** [not init], for the optional [init: dict = None] *)
Definition not_init (init : option kwargs) : bool :=
  match init with
  | None => true
  | Some d => negb (truthy (JObject d))
  end.

(** [PartialOrder._is_error] *)
Definition PartialOrder_is_error (self : instance) (init : option kwargs)
  : result bool :=
  if not_init init then
    negb <$> hasattr self "hash"
  else
    j ← getattr self raw_slot;
    n ← len j;
    Ok (n <? 2).

(** The call [self._is_error(...)]: the name is looked up on the instance
    first, and what an assignment has stored there is not callable. *)
Definition self_is_error (self : instance) (init : option kwargs)
  : result bool :=
  m ← getattr self "_is_error";
  match m with
  | VMember _ _ => PartialOrder_is_error self init
  | _ => Raise (TypeError "object is not callable")
  end.

(** [PartialOrder.__init__].  The update of [__annotations__] changes the
    class, not the instance, and runs before any key is assigned. *)
Definition PartialOrder_init (self : instance) (data : kwargs)
  : result instance :=
  self ← setattr self raw_slot (VJson (JObject data));
  err ← self_is_error self (Some data);
  if err : bool then Ok self
  else
    self ← Transfer_init self data;
    for_each (λ '(k, x) self, setattr self (to_snake_case k) (VJson x))
      data self.

Definition PartialOrder_repr (self : instance) : result string :=
  err ← self_is_error self None;
  if err : bool then Ok "<Incomplete PartialOrder>"
  else auto_repr self.

Definition PartialOrder_str (self : instance) : result value :=
  err ← self_is_error self None;
  if err : bool then
    Ok (VJson (JStr ("Incomplete " +:+ class_name (cls self) +:+ ".")))
  else getattr self "hash".

(** The property [PartialOrder.json] *)
Definition PartialOrder_json (self : instance) : result value :=
  getattr self raw_slot.

(** *** [Order] *)

(** [Order.__init__]; it opens with the same update of [__annotations__]. *)
Definition Order_init (self : instance) (data : kwargs) : result instance :=
  self ← PartialOrder_init self data;
  err ← self_is_error self (Some data);
  if err : bool then Ok self
  else
    for_each
      (λ '(k, x) self,
         if decide (k = "validity") then
           d ← unpack_mapping x;
           o ← construct Validity Validity_init d;
           setattr self k (to_value o)
         else if decide (k = "volumes") then
           d ← unpack_mapping x;
           o ← construct Volume Volume_init d;
           setattr self k (to_value o)
         else setattr self (to_snake_case k) (VJson x))
      data self.

Definition Order_repr (self : instance) : result string :=
  err ← self_is_error self None;
  if err : bool then Ok "<Incomplete Order>"
  else auto_repr self.

(** [repr(self)] and [str(self)] on an instance of [PartialOrder], [Order]
    included: the method of the type; what [__str__] returns must be a
    [str]. *)
Definition repr (self : instance) : result string :=
  if decide (cls self = Order) then Order_repr self
  else PartialOrder_repr self.

Definition str_of (self : instance) : result string :=
  v ← PartialOrder_str self;
  match v with
  | VJson (JStr s) => Ok s
  | _ => Raise (TypeError "__str__ returned non-string")
  end.

(** *** [_OrderBookOrder], [Ask], [Bid] *)

(** [_OrderBookOrder.__init__(self, price, size, volume, quantity)], called
    with the items of one array of the book unpacked as positional
    arguments: they bind the parameters in that order. *)
Definition _OrderBookOrder_init (self : instance) (args : list json)
  : result instance :=
  match args with
  | [price; size; volume; quantity] =>
      self ← setattr self "price" (VJson price);
      q ← int quantity;
      self ← setattr self "quantity" (VJson (JInt q));
      s ← int size;
      self ← setattr self "size" (VJson (JInt s));
      v ← int volume;
      setattr self "volume" (VJson (JInt v))
  | _ => Raise (TypeError "__init__() takes 4 positional arguments")
  end.

(** One instance of [c] per array of [x], as each of the two loops of
    [OrderBook.__init__] builds its list. *)
Definition book_orders (c : pyclass) (x : json) : result (list value) :=
  items ← iterate x;
  collect
    (λ a, args ← iterate a;
          o ← _OrderBookOrder_init (new c) args;
          Ok (to_value o))
    items.

(** *** [OrderBook] *)
Definition OrderBook_init (self : instance) (data : kwargs) : result instance :=
  for_each
    (λ '(k, x) self,
       if decide (k = "asks") then
         asks ← book_orders Ask x;
         setattr self (to_snake_case k) (VList asks)
       else if decide (k = "bids") then
         bids ← book_orders Bid x;
         setattr self (to_snake_case k) (VList bids)
       else if decide (k = "timestamp") then
         t ← fromtimestamp_ms x;
         setattr self k t
       else setattr self (to_snake_case k) (VJson x))
    data self.

(** Unpacking [v] inside a list display *)
Definition unpack (v : value) : result (list value) :=
  match v with
  | VList l => Ok l
  | VJson j => fmap (M := list) VJson <$> iterate j
  | _ => Raise (TypeError "Value after * must be an iterable")
  end.

(** [_.quantity] *)
Definition quantity_of (v : value) : result value :=
  match v with
  | VInstance c d => getattr (Instance c d) "quantity"
  | _ => Raise (AttributeError "object has no attribute 'quantity'")
  end.

(** [acc + q] for the running [int] of [sum] *)
Definition add (acc : Z) (q : value) : result Z :=
  match q with
  | VJson (JInt n) => Ok (acc + n)
  | VJson (JBool b) => Ok (acc + (if b then 1 else 0))
  | _ => Raise (TypeError "unsupported operand type(s) for +")
  end.

(** [OrderBook.__len__] *)
Definition OrderBook_len (self : instance) : result Z :=
  asks ← getattr self "asks";
  la ← unpack asks;
  bids ← getattr self "bids";
  lb ← unpack bids;
  for_each (λ o acc, q ← quantity_of o; add acc q) (la ++ lb) 0.

End classes.

(** The orders of one side of a constructed book. *)
Definition side_of (self : instance) (name : string) : result (list value) :=
  v ← getattr self name; unpack v.

(** *** Vocabulary of the properties *)

(** Each round of [body] over [data] binds the attribute [field k] of its
    key [k] and nothing else. *)
Definition assigns (field : string → string)
    (body : string * json → instance → result instance) (data : kwargs)
  : Prop :=
  ∀ k x s s', (k, x) ∈ data → body (k, x) s = Ok s' →
    cls s' = cls s ∧ ∃ v, attrs s' = <[field k := v]> (attrs s).

(** The object a constructor returns on a placeholder: the raw mapping and
    nothing else. *)
Definition kept (c : pyclass) (data : kwargs) : instance :=
  Instance c {[ raw_slot := VJson (JObject data) ]}.

(** [o] renders as an incomplete [name], and [o.hash] raises
    [AttributeError]. *)
Definition incomplete (auto_repr : instance → result string)
    (name : string) (o : instance) : Prop :=
  repr auto_repr o = Ok ("<Incomplete " +:+ name +:+ ">") ∧
  str_of o = Ok ("Incomplete " +:+ name +:+ ".") ∧
  raises_AttributeError (getattr o "hash").

(** The attribute names an order's own working rests on: the instance
    dictionary, the raw mapping, and the method behind both placeholder
    tests.  A key normalised to one of them overwrites it. *)
Definition reserved : list string := ["__dict__"; raw_slot; "_is_error"].

(** The attribute the loop of [Order.__init__] binds for the key [k]. *)
Definition Order_field (to_snake_case : string → string) (k : string)
  : string :=
  if decide (k = "validity") then k
  else if decide (k = "volumes") then k
  else to_snake_case k.

End order.

(** ** [loopring/client.py] *)
Module client.
Import py.

(** One HTTP GET as the client issues it. *)
Record request : Type :=
  Request { url : json; headers : kwargs; params : kwargs }.

(** The [aiohttp.ClientSession] a client owns, as far as the client looks at
    it: open or closed. *)
Record ClientSession : Type := Session { closed : bool }.

(** [await session.close()] *)
Definition ClientSession_close (s : ClientSession) : ClientSession :=
  Session true.

Record Client : Type := {
  handle_errors : json;
  account_id : json;
  api_key : json;
  endpoint : json;
  _session : ClientSession
}.

(** Code that may send requests: it runs on the log of the requests sent so
    far, oldest first, and leaves the log it has extended, also when it
    raises. *)
Definition io (A : Type) : Type := list request → result A * list request.

Definition raise {A} (e : exn) : io A := λ log, (Raise e, log).
Definition lift {A} (r : result A) : io A := λ log, (r, log).

#[global] Instance io_ret : MRet io := λ A a log, (Ok a, log).
#[global] Instance io_bind : MBind io := λ A B f m log,
  match m log with
  | (Ok a, log') => f a log'
  | (Raise e, log') => (Raise e, log')
  end.

(** [a + b] on two [str] *)
Definition concat (a b : json) : result json :=
  match a, b with
  | JStr s, JStr t => Ok (JStr (s +:+ t))
  | _, _ => Raise (TypeError "unsupported operand type(s) for +")
  end.

Section methods.

(** [PATH.STORAGE_ID] and [PATH.ORDER] of [util/enums.py]. *)
Variable STORAGE_ID ORDER : json.

(** [raise_errors_in] of [util/helpers.py]. *)
Variable raise_errors_in : json → result unit.

(** [to_snake_case] of [util/helpers.py], for the orders built. *)
Variable to_snake_case : string → string.

(** The relayer: what [json.loads(raw_content.decode())] gives for a request
    after the requests before it, or the exception the transport or the
    decoder raises. *)
Variable respond : list request → request → result json.

(** [async with self._session.get(url, headers=headers, params=params)],
    read and decoded.  A closed session sends nothing. *)
Definition session_get (s : ClientSession) (req : request) : io json :=
  λ log,
    if closed s then (Raise (RuntimeError "Session is closed"), log)
    else (respond log req, (log ++ [req])%list).

(** [Client.__init__(self, account_id=None, api_key=None, endpoint=None, *,
    handle_errors=True, **config)]; [config] holds the keywords of the call
    other than the four named ones. *)
Definition Client_init (account_id api_key endpoint handle_errors : json)
    (config : kwargs) : io Client :=
  config ← lift (bind_keywords config);
  cfg ← lift (getitem config "config");
  a ← lift (dict_get cfg "account_id");
  if negb (truthy (or_else a account_id)) then
    raise (InvalidArguments "Missing account ID from config.")
  else
  k ← lift (dict_get cfg "api_key");
  if negb (truthy (or_else k api_key)) then
    raise (InvalidArguments "Missing API Key from config.")
  else
  e ← lift (dict_get cfg "endpoint");
  if negb (truthy (or_else e endpoint)) then
    raise (InvalidArguments "Missing endpoint from config.")
  else
    mret {| handle_errors := handle_errors;
           account_id := or_else a account_id;
           api_key := or_else k api_key;
           endpoint := or_else e endpoint;
           _session := Session false |}.

(** [Client.close]: the client after the call. *)
Definition Client_close (self : Client) : result unit * Client :=
  if negb (closed (_session self)) then
    (Ok (), {| handle_errors := handle_errors self;
               account_id := account_id self;
               api_key := api_key self;
               endpoint := endpoint self;
               _session := ClientSession_close (_session self) |})
  else (Ok (), self).

(** [Client.get_next_storage_id(sell_token_id=None)] *)
Definition get_next_storage_id (self : Client) (sell_token_id : json)
  : io json :=
  if negb (truthy sell_token_id) then
    raise (InvalidArguments "Missing 'sellTokenID' argument.")
  else
    url ← lift (concat (endpoint self) STORAGE_ID);
    let headers := [("X-API-KEY", api_key self)] in
    let params :=
      [("accountId", account_id self); ("sellTokenId", sell_token_id)] in
    content ← session_get (_session self) (Request url headers params);
    _ ← lift (if truthy (handle_errors self) then raise_errors_in content
               else Ok ());
    mret content.

(** [Client.get_order_details(orderhash=None)] *)
Definition get_order_details (self : Client) (orderhash : json)
  : io instance :=
  if negb (truthy orderhash) then
    raise (InvalidArguments "Missing 'orderhash' argument.")
  else
    url ← lift (concat (endpoint self) ORDER);
    let headers := [("X-API-KEY", api_key self)] in
    let params :=
      [("accountId", account_id self); ("orderHash", orderhash)] in
    content ← session_get (_session self) (Request url headers params);
    _ ← lift (if truthy (handle_errors self) then raise_errors_in content
               else Ok ());
    d ← lift (unpack_mapping content);
    lift (order.construct Order (order.Order_init to_snake_case) d).

End methods.

End client.

(** ** Payloads for the examples *)
Module samples.
Import py.

(** The body of an unsuccessful response. *)
Definition error_response : kwargs :=
  [("resultInfo",
    JObject [("code", JInt 100001); ("message", JStr "Invalid argument")])].

(** Two keys, none of them the order hash. *)
Definition sparse_order : kwargs :=
  [("status", JStr "processing"); ("clientOrderId", JStr "1")].


(** What submitting an order returns. *)
Definition partial_order : kwargs :=
  [("hash", JStr "0x13375450b4d1efb6f4b1575");
   ("clientOrderId", JStr "1");
   ("status", JStr "processing");
   ("isIdempotent", JBool false)].

(** What looking an order up returns. *)
Definition full_order : kwargs :=
  [("hash", JStr "0x13375450b4d1efb6f4b1575");
   ("clientOrderId", JStr "1");
   ("isIdempotent", JBool false);
   ("side", JStr "BUY");
   ("market", JStr "LRC-ETH");
   ("price", JStr "0.03");
   ("volumes",
    JObject [("baseAmount", JStr "1000"); ("quoteAmount", JStr "30");
             ("baseFilled", JStr "0"); ("quoteFilled", JStr "0");
             ("fee", JStr "0")]);
   ("validity", JObject [("start", JInt 1567053142); ("end", JInt 1567053242)]);
   ("orderType", JStr "LIMIT_ORDER");
   ("tradeChannel", JStr "MIXED");
   ("status", JStr "processing")].

(** A stand-in for [auto_repr] where an example needs one. *)
Definition class_repr (o : instance) : result string :=
  Ok ("<" +:+ class_name (cls o) +:+ ">").

(** One price level as a list of four strings. *)
Definition level (a b c d : string) : json :=
  JList [JStr a; JStr b; JStr c; JStr d].

(** The book whose arrays read price, quantity, size, volume. *)
Definition book_quantity_second : kwargs :=
  [("asks", JList [level "100.5" "2" "10" "200"]);
   ("bids", JList [level "99.5" "1" "5" "99.5"])].

(** Its asks alone. *)
Definition asks_quantity_second : kwargs :=
  [("asks", JList [level "100.5" "2" "10" "200"]); ("bids", JList [])].

(** The book whose arrays read price, size, volume, quantity, with whole
    numbers after the price. *)
Definition book_quantity_last : kwargs :=
  [("asks", JList [level "100.5" "10" "200" "2"]);
   ("bids", JList [level "99.5" "5" "99" "1"])].

(** A client as the constructor leaves it, and stand-ins for what the
    methods take from [util] and from the network. *)
Definition open_client : client.Client :=
  {| client.handle_errors := JBool true;
     client.account_id := JInt 12345;
     client.api_key := JStr "sra1aavfa";
     client.endpoint := JStr "https://api3.loopring.io";
     client._session := client.Session false |}.

Definition storage_id_path : json := JStr "/api/v3/storageId".

Definition no_errors (content : json) : result unit := Ok ().

Definition silent_relayer (log : list client.request) (req : client.request)
  : result json :=
  Ok (JObject []).

End samples.

(** ** [loopring/order.py]: vocabulary for the further properties *)
Module order_more.
Import py order.

(** The attribute the loop of [OrderBook.__init__] binds for the key [k]. *)
Definition OrderBook_field (to_snake_case : string → string) (k : string)
  : string :=
  if decide (k = "timestamp") then k else to_snake_case k.

(** One level of a book as the constructor of [Ask] and [Bid] reads it. *)
Record level : Type := Level {
  level_price : json;
  level_size : Z;
  level_volume : Z;
  level_quantity : Z
}.

(** Unpacked, the wire array [a] has four items, the price and three that
    [int] accepts, in the order of the parameters. *)
Definition reads_as (a : json) (l : level) : Prop :=
  ∃ size volume quantity,
    iterate a = Ok [level_price l; size; volume; quantity] ∧
    int size = Ok (level_size l) ∧
    int volume = Ok (level_volume l) ∧
    int quantity = Ok (level_quantity l).

(** The instance of [c] with the four fields of a level. *)
Definition entry (c : pyclass) (l : level) : value :=
  VInstance c
    (<["volume" := VJson (JInt (level_volume l))]>
       (<["size" := VJson (JInt (level_size l))]>
          (<["quantity" := VJson (JInt (level_quantity l))]>
             {[ "price" := VJson (level_price l) ]}))).

(** The sum of the quantities of some levels. *)
Definition total_quantity (ls : list level) : Z :=
  foldr Z.add 0 (level_quantity <$> ls).


End order_more.

(** ** [loopring/client.py]: the other requests *)
Module client_more.
Import py client.

(** [x[key]] with a [str] for key *)
Definition subscript (x : json) (key : string) : result json :=
  match x with
  | JObject d => getitem d key
  | JList _ => Raise (TypeError "list indices must be integers or slices")
  | JStr _ => Raise (TypeError "string indices must be integers")
  | _ => Raise (TypeError "object is not subscriptable")
  end.

(** What a method that also prints runs on: the requests sent and the
    mappings printed, oldest first. *)
Record world : Type := World { sent : list request; printed : list kwargs }.

Definition console (A : Type) : Type := world → result A * world.

#[global] Instance console_ret : MRet console := λ A a w, (Ok a, w).
#[global] Instance console_bind : MBind console := λ A B f m w,
  match m w with
  | (Ok a, w') => f a w'
  | (Raise e, w') => (Raise e, w')
  end.

(** [print(params)] *)
Definition print (params : kwargs) : console unit := λ w,
  (Ok (), World (sent w) (printed w ++ [params])%list).

(** Code that only sends, run where printing is possible too. *)
Definition on_network {A} (m : io A) : console A := λ w,
  let '(r, log) := m (sent w) in (r, World log (printed w)).

(** The keyword arguments of [get_multiple_orders]. *)
Record orders_query : Type := {
  end_ : json;
  limit : json;
  market : json;
  offset : json;
  order_types : json;
  side : json;
  start : json;
  status : json;
  trade_channels : json
}.

(** The defaults of the signature. *)
Definition default_query : orders_query :=
  {| end_ := JInt 0; limit := JInt 50; market := JNull; offset := JInt 0;
     order_types := JNull; side := JNull; start := JInt 0; status := JNull;
     trade_channels := JNull |}.

(** The [params] of [get_multiple_orders] before the unspecified ones are
    filtered out. *)
Definition all_params (self : Client) (q : orders_query) : kwargs :=
  [("accountId", account_id self);
   ("end", end_ q);
   ("limit", limit q);
   ("market", market q);
   ("offset", offset q);
   ("orderTypes", order_types q);
   ("side", side q);
   ("start", start q);
   ("status", status q);
   ("tradeChannels", trade_channels q)].

Section methods.

(** [PATH.ORDERS] and [PATH.RELAYER_CURRENT_TIME] of [util/enums.py]. *)
Variable ORDERS RELAYER_CURRENT_TIME : json.

(** [raise_errors_in] and [to_snake_case] of [util/helpers.py]. *)
Variable raise_errors_in : json → result unit.
Variable to_snake_case : string → string.

(** The relayer, as for the other requests. *)
Variable respond : list request → request → result json.

(** [Client.get_multiple_orders], all of whose arguments are keywords:
    [end=0, limit=50, market=None, offset=0, order_types=None, side=None,
    start=0, status=None, trade_channels=None]. *)
Definition get_multiple_orders (self : Client) (q : orders_query)
  : console (list instance) :=
  url ← on_network (lift (concat (endpoint self) ORDERS));
  let headers := [("X-API-KEY", api_key self)] in
  let params := all_params self q in
  let params := filter (λ kv, truthy kv.2) params in
  _ ← print params;
  content ← on_network
              (session_get respond (_session self)
                 (Request url headers params));
  _ ← on_network
        (lift (if truthy (handle_errors self) then raise_errors_in content
               else Ok ()));
  on_network
    (lift (found ← subscript content "orders";
           items ← iterate found;
           collect
             (λ order,
                d ← unpack_mapping order;
                order.construct Order (order.Order_init to_snake_case) d)
             items)).

(** [Client.get_relayer_timestamp()]; the request has neither headers nor
    parameters. *)
Definition get_relayer_timestamp (self : Client) : io json :=
  url ← lift (concat (endpoint self) RELAYER_CURRENT_TIME);
  content ← session_get respond (_session self) (Request url [] []);
  _ ← lift (if truthy (handle_errors self) then raise_errors_in content
             else Ok ());
  lift (subscript content "timestamp").

End methods.

End client_more.

(** ** Payloads and clients for the further examples *)
Module samples_more.
Import py client client_more samples.

(** The volumes of an order. *)
Definition volumes_payload : kwargs :=
  [("baseAmount", JStr "1000"); ("quoteAmount", JStr "30");
   ("baseFilled", JStr "0"); ("quoteFilled", JStr "0"); ("fee", JStr "0")].

(** The validity of an order. *)
Definition validity_payload : kwargs :=
  [("start", JInt 1567053142); ("end", JInt 1567053242)].

(** An order whose validity came as a number. *)
Definition order_with_flat_validity : kwargs :=
  [("hash", JStr "0x13375450b4d1efb6f4b1575"); ("validity", JInt 1567053242)].

(** A whole book, as the depth request answers. *)
Definition depth : kwargs :=
  [("version", JInt 147);
   ("timestamp", JInt 1700000000000);
   ("market", JStr "LRC-ETH");
   ("bids", JList [level "99.5" "5" "99" "1"; level "99.0" "7" "140" "3"]);
   ("asks", JList [level "100.5" "10" "200" "2"])].

(** A book of which only the market is known. *)
Definition book_without_sides : kwargs := [("market", JStr "LRC-ETH")].

(** The client of [samples] with [handle_errors] off. *)
Definition unhandled_client : Client :=
  {| handle_errors := JBool false;
     account_id := JInt 12345;
     api_key := JStr "sra1aavfa";
     endpoint := JStr "https://api3.loopring.io";
     _session := Session false |}.

Definition order_path : json := JStr "/api/v3/order".
Definition orders_path : json := JStr "/api/v3/orders".
Definition time_path : json := JStr "/api/v3/timestamp".

(** A relayer that answers every request with the error payload. *)
Definition refusing_relayer (log : list request) (req : request)
  : result json :=
  Ok (JObject error_response).

(** A stand-in for [raise_errors_in] that raises on every content. *)
Definition reports_unknown (content : json) : result unit :=
  Raise (RuntimeError "UnknownError").

(** A relayer that answers every request with a list of two orders. *)
Definition listing_relayer (log : list request) (req : request)
  : result json :=
  Ok (JObject [("totalNum", JInt 2);
               ("orders", JList [JObject full_order; JObject partial_order])]).

(** A relayer that answers with a string. *)
Definition babbling_relayer (log : list request) (req : request)
  : result json :=
  Ok (JStr "Bad Gateway").

(** The account file of the example script, with the endpoint added. *)
Definition account : kwargs :=
  [("account_id", JInt 12345); ("api_key", JStr "sra1aavfa");
   ("endpoint", JStr "https://api3.loopring.io")].

(** A relayer that tells the time. *)
Definition clock_relayer (log : list request) (req : request) : result json :=
  Ok (JObject [("timestamp", JInt 1700000000000)]).

(** A listing of one market, from a given time on. *)
Definition market_query : orders_query :=
  {| end_ := JInt 0; limit := JInt 50; market := JStr "LRC-ETH";
     offset := JInt 0; order_types := JNull; side := JNull;
     start := JInt 1699000000000; status := JNull;
     trade_channels := JNull |}.

End samples_more.

(** * Properties *)

(** ** The Python fragment *)
Module py_facts.
Import py.

Lemma bind_Ok {A B} (m : result A) (f : A → result B) (b : B) :
  m ≫= f = Ok b → ∃ a, m = Ok a ∧ f a = Ok b.
Proof. destruct m as [a|e]; simpl; [eauto | discriminate]. Qed.

Lemma fmap_Ok {A B} (m : result A) (f : A → B) (b : B) :
  f <$> m = Ok b → ∃ a, m = Ok a ∧ b = f a.
Proof. destruct m as [a|e]; simpl; [|discriminate]. intros [= <-]. eauto. Qed.

(** A property every round of a loop keeps holds when the loop returns. *)
Lemma for_each_ind {A S} (P : S → Prop) (body : A → S → result S) xs :
  (∀ x s s', x ∈ xs → P s → body x s = Ok s' → P s') →
  ∀ s s', P s → for_each body xs s = Ok s' → P s'.
Proof.
  induction xs as [|x xs IH]; intros Hbody s s' Hs; simpl.
  - intros [= <-]. exact Hs.
  - intros Hrun. apply bind_Ok in Hrun as (s1 & H1 & Hrest).
    eapply IH; [| |exact Hrest].
    + intros y t t' Hy. apply Hbody. by right.
    + eapply Hbody; [by left | exact Hs | exact H1].
Qed.

(** A property one round establishes and the others keep holds when the
    loop returns. *)
Lemma for_each_reaches {A S} (P : S → Prop) (body : A → S → result S) xs x0 :
  x0 ∈ xs →
  (∀ s s', body x0 s = Ok s' → P s') →
  (∀ x s s', x ∈ xs → P s → body x s = Ok s' → P s') →
  ∀ s s', for_each body xs s = Ok s' → P s'.
Proof.
  induction xs as [|x xs IH]; intros Hin Hx0 Hkeep s s'; simpl.
  - by apply elem_of_nil in Hin.
  - intros Hrun. apply bind_Ok in Hrun as (s1 & H1 & Hrest).
    apply elem_of_cons in Hin as [->|Hin].
    + eapply (for_each_ind P); [| |exact Hrest].
      * intros y t t' Hy. apply Hkeep. by right.
      * by eapply Hx0.
    + eapply IH; [exact Hin | exact Hx0 | | exact Hrest].
      intros y t t' Hy. apply Hkeep. by right.
Qed.

Lemma bind_keywords_Ok (data d : kwargs) :
  bind_keywords data = Ok d → ("self" ∉ data.*1) ∧ d = data.
Proof.
  unfold bind_keywords. case_bool_decide; [discriminate|].
  by intros [= <-].
Qed.

Lemma bind_keywords_plain (data : kwargs) :
  "self" ∉ data.*1 → bind_keywords data = Ok data.
Proof. intros Hself. unfold bind_keywords. by rewrite bool_decide_false. Qed.

Lemma length_lt_2 {A} (l : list A) :
  (List.length l < 2)%nat → l = [] ∨ ∃ x, l = [x].
Proof.
  destruct l as [|x [|y l]]; simpl; intros H; [by left | right; eauto | lia].
Qed.

(** [int] on a few literals: white space and single underscores are
    allowed, a sign comes first; the separators among the control
    characters are not white space to it, a no-break space is. *)
Example int_literals :
  int (JStr " +1_000 ") = Ok 1000 ∧
  int (JStr "-42") = Ok (-42) ∧
  int (JStr (String (ascii_of_nat 160) "7")) = Ok 7 ∧
  int (JStr (String (ascii_of_nat 28) "5")) = Raise invalid_literal ∧
  int (JStr "1__0") = Raise invalid_literal ∧
  int (JStr "99.5") = Raise invalid_literal ∧
  int (JStr "") = Raise invalid_literal.
Proof. repeat split; reflexivity. Qed.

End py_facts.

(** ** [order.py]: attribute access and the assignment loops *)
Module order_facts.
Import py py_facts order.

Lemma data_descriptor_dict c name :
  data_descriptor c name = Some slot_dict → name = "__dict__".
Proof.
  unfold data_descriptor. repeat case_decide; try destruct (has_json c);
    congruence.
Qed.

Lemma setattr_cls self name v self' :
  setattr self name v = Ok self' → cls self' = cls self.
Proof.
  unfold setattr. destruct (data_descriptor _ _) as [[]|]; try discriminate.
  - destruct v as [[]| | | | | |]; try discriminate. by intros [= <-].
  - by intros [= <-].
Qed.

(** Outside [__dict__], an assignment that returns has stored the value. *)
Lemma setattr_attrs self name v self' :
  name ≠ "__dict__" → setattr self name v = Ok self' →
  attrs self' = <[name := v]> (attrs self).
Proof.
  intros Hname. unfold setattr.
  destruct (data_descriptor _ _) as [[]|] eqn:Hd; try discriminate.
  - by apply data_descriptor_dict in Hd.
  - by intros [= <-].
Qed.

Lemma setattr_free self name v :
  data_descriptor (cls self) name = None →
  setattr self name v = Ok (Instance (cls self) (<[name := v]> (attrs self))).
Proof. intros Hfree. unfold setattr. by rewrite Hfree. Qed.

Lemma setattr_raw_slot c (v : value) :
  setattr (new c) raw_slot v = Ok (Instance c {[ raw_slot := v ]}).
Proof. reflexivity. Qed.

(** Reads of [hash] and of the raw mapping look in the instance
    dictionary only, whatever the class. *)
Lemma getattr_hash self :
  getattr self "hash" =
    match attrs self !! "hash" with
    | Some v => Ok v
    | None => Raise (no_attribute (cls self) "hash")
    end.
Proof. destruct self as [c d]. destruct c; reflexivity. Qed.

Lemma getattr_raw_slot self :
  getattr self raw_slot =
    match attrs self !! raw_slot with
    | Some v => Ok v
    | None => Raise (no_attribute (cls self) raw_slot)
    end.
Proof. destruct self as [c d]. destruct c; reflexivity. Qed.

Lemma hasattr_hash self :
  hasattr self "hash" = Ok (bool_decide (is_Some (attrs self !! "hash"))).
Proof.
  unfold hasattr. rewrite getattr_hash.
  destruct (attrs self !! "hash") as [v|]; reflexivity.
Qed.

(** A constructor call that returns has bound its keywords and run
    [__init__] on a new instance. *)
Lemma construct_Ok c init (data : kwargs) o :
  construct c init data = Ok o →
  ("self" ∉ data.*1) ∧ init (new c) data = Ok o.
Proof.
  unfold construct. intros Hrun.
  apply bind_Ok in Hrun as (d & Hd & Hrun).
  apply bind_keywords_Ok in Hd as [Hself ->]. done.
Qed.

Lemma construct_plain c init (data : kwargs) :
  "self" ∉ data.*1 → construct c init data = init (new c) data.
Proof.
  intros Hself. unfold construct. by rewrite bind_keywords_plain.
Qed.

(** The method behind the placeholder tests is found on the type unless
    the instance dictionary has the name. *)
Lemma self_is_error_method self init :
  has_json (cls self) = true → attrs self !! "_is_error" = None →
  self_is_error self init = PartialOrder_is_error self init.
Proof.
  destruct self as [c d]. simpl. intros Hc Hd. unfold self_is_error.
  destruct c; try discriminate;
    unfold getattr, Order_getattribute, object_getattribute,
      instance_or_type_attr; simpl; rewrite Hd; reflexivity.
Qed.

(** The attribute read [o.json] runs the getter. *)
Lemma getattr_json self :
  has_json (cls self) = true → getattr self "json" = PartialOrder_json self.
Proof.
  destruct self as [c d]. destruct c; simpl; try discriminate; reflexivity.
Qed.

Section assigns.
Context {field : string → string}
        {body : string * json → instance → result instance} {data : kwargs}
        (Hassigns : assigns field body data).

Lemma assigns_cls s s' :
  for_each body data s = Ok s' → cls s' = cls s.
Proof.
  intros Hrun.
  apply (for_each_ind (λ t, cls t = cls s) body data) with (s:=s); try done.
  intros [k x] t t' Hin Ht Hbody.
  destruct (Hassigns k x t t' Hin Hbody) as [-> _]. done.
Qed.

Lemma assigns_other n s s' :
  (∀ k, k ∈ data.*1 → field k ≠ n) →
  for_each body data s = Ok s' → attrs s' !! n = attrs s !! n.
Proof.
  intros Hn Hrun.
  apply (for_each_ind (λ t, attrs t !! n = attrs s !! n) body data)
    with (s:=s); try done.
  intros [k x] t t' Hin Ht Hbody.
  destruct (Hassigns k x t t' Hin Hbody) as [_ [v ->]].
  rewrite lookup_insert_ne; [done|].
  apply Hn. apply list_elem_of_fmap. by exists (k, x).
Qed.

Lemma assigns_keeps n s s' :
  is_Some (attrs s !! n) →
  for_each body data s = Ok s' → is_Some (attrs s' !! n).
Proof.
  intros Hn Hrun.
  apply (for_each_ind (λ t, is_Some (attrs t !! n)) body data)
    with (s:=s); try done.
  intros [k x] t t' Hin Ht Hbody.
  destruct (Hassigns k x t t' Hin Hbody) as [_ [v ->]].
  rewrite lookup_insert. case_decide; [by eexists | done].
Qed.

Lemma assigns_binds k s s' :
  k ∈ data.*1 →
  for_each body data s = Ok s' → is_Some (attrs s' !! field k).
Proof.
  intros Hk Hrun. apply list_elem_of_fmap in Hk as ([k' x] & -> & Hin).
  simpl. apply (for_each_reaches
    (λ t, is_Some (attrs t !! field k')) body data (k', x) Hin)
    with (s:=s); try done.
  - intros t t' Hbody.
    destruct (Hassigns k' x t t' Hin Hbody) as [_ [v ->]].
    rewrite lookup_insert_eq. by eexists.
  - intros [k x'] t t' Hin' Ht Hbody.
    destruct (Hassigns k x' t t' Hin' Hbody) as [_ [v ->]].
    rewrite lookup_insert. case_decide; [by eexists | done].
Qed.

End assigns.

End order_facts.

(** ** [order.py]: what the constructors build *)
Module order_build.
Import py py_facts order order_facts.

Section constructors.
Context (to_snake_case : string → string).

Lemma field_loop_assigns (data : kwargs) :
  (∀ k, k ∈ data.*1 → to_snake_case k ≠ "__dict__") →
  assigns to_snake_case
    (λ '(k, x) self, setattr self (to_snake_case k) (VJson x)) data.
Proof.
  intros Hplain k x s s' Hin Hbody. simpl in Hbody.
  assert (to_snake_case k ≠ "__dict__") as Hk.
  { apply Hplain. apply list_elem_of_fmap. by exists (k, x). }
  split; [by eapply setattr_cls|].
  eexists. by eapply setattr_attrs.
Qed.

Lemma Order_field_plain (data : kwargs) k :
  (∀ k, k ∈ data.*1 → to_snake_case k ≠ "__dict__") →
  k ∈ data.*1 → Order_field to_snake_case k ≠ "__dict__".
Proof.
  intros Hplain Hk. unfold Order_field.
  repeat case_decide; subst; try discriminate. by apply Hplain.
Qed.

Lemma Order_loop_assigns (data : kwargs) :
  (∀ k, k ∈ data.*1 → to_snake_case k ≠ "__dict__") →
  assigns (Order_field to_snake_case)
    (λ '(k, x) self,
       if decide (k = "validity") then
         d ← unpack_mapping x;
         o ← construct Validity Validity_init d;
         setattr self k (to_value o)
       else if decide (k = "volumes") then
         d ← unpack_mapping x;
         o ← construct Volume (Volume_init to_snake_case) d;
         setattr self k (to_value o)
       else setattr self (to_snake_case k) (VJson x))
    data.
Proof.
  intros Hplain k x s s' Hin Hbody. simpl in Hbody.
  assert (k ∈ data.*1) as Hk.
  { apply list_elem_of_fmap. by exists (k, x). }
  pose proof (Order_field_plain data k Hplain Hk) as Hfield.
  unfold Order_field in *.
  repeat case_decide.
  - apply bind_Ok in Hbody as (d & _ & Hbody).
    apply bind_Ok in Hbody as (o & _ & Hbody).
    split; [by eapply setattr_cls|]. eexists. by eapply setattr_attrs.
  - apply bind_Ok in Hbody as (d & _ & Hbody).
    apply bind_Ok in Hbody as (o & _ & Hbody).
    split; [by eapply setattr_cls|]. eexists. by eapply setattr_attrs.
  - split; [by eapply setattr_cls|]. eexists. by eapply setattr_attrs.
Qed.

(** The key-count test of the constructors, on the object that holds the
    raw mapping only. *)
Lemma is_error_kept c (data : kwargs) :
  has_json c = true →
  self_is_error (kept c data) (Some data)
  = Ok (bool_decide (List.length data < 2)%nat).
Proof.
  intros Hc. rewrite self_is_error_method by done.
  destruct data as [|kv [|kv' data]].
  - destruct c; reflexivity.
  - destruct c; reflexivity.
  - unfold PartialOrder_is_error. simpl not_init. cbv iota.
    rewrite getattr_raw_slot. simpl.
    rewrite lookup_singleton_eq. simpl.
    f_equal. apply Z.ltb_ge. lia.
Qed.

(** *** Placeholders *)

Lemma PartialOrder_init_placeholder c (data : kwargs) :
  has_json c = true →
  (List.length data < 2)%nat →
  PartialOrder_init to_snake_case (new c) data = Ok (kept c data).
Proof.
  intros Hc Hlen. unfold PartialOrder_init. rewrite setattr_raw_slot. simpl.
  fold (kept c data). rewrite is_error_kept by done.
  by rewrite bool_decide_true.
Qed.

Lemma Order_init_placeholder (data : kwargs) :
  (List.length data < 2)%nat →
  Order_init to_snake_case (new Order) data = Ok (kept Order data).
Proof.
  intros Hlen. unfold Order_init.
  rewrite PartialOrder_init_placeholder by done. simpl.
  rewrite is_error_kept by done. by rewrite bool_decide_true.
Qed.

(** *** Populated objects *)

Lemma PartialOrder_init_populated c (data : kwargs) :
  has_json c = true →
  (2 ≤ List.length data)%nat →
  PartialOrder_init to_snake_case (new c) data
  = (self ← Transfer_init to_snake_case (kept c data) data;
     for_each (λ '(k, x) self, setattr self (to_snake_case k) (VJson x))
       data self).
Proof.
  intros Hc Hlen. unfold PartialOrder_init. rewrite setattr_raw_slot. simpl.
  fold (kept c data). rewrite is_error_kept by done.
  by rewrite bool_decide_false by lia.
Qed.

(** Where no key is normalised to a name a descriptor guards, the
    assignment loop returns, and so does [PartialOrder]: the objects the
    properties below speak of exist. *)
Lemma field_loop_returns (data : kwargs) s :
  (∀ k, k ∈ data.*1 → data_descriptor (cls s) (to_snake_case k) = None) →
  ∃ s', for_each (λ '(k, x) self, setattr self (to_snake_case k) (VJson x))
          data s = Ok s' ∧ cls s' = cls s.
Proof.
  revert s. induction data as [|[k x] data IH]; intros s Hfree.
  - simpl. eauto.
  - cbn [for_each]. rewrite setattr_free by (apply Hfree; by left). simpl.
    destruct (IH (Instance (cls s) (<[to_snake_case k := VJson x]> (attrs s))))
      as (s' & Hrun & Hcls).
    + intros k' Hk'. simpl. apply Hfree. by right.
    + exists s'. done.
Qed.

(** X9: [PartialOrder] returns an object for every mapping that has no key
    named [self] and no key normalised to a name a descriptor of the class
    guards: the assignment loop cannot fail on any other key. *)
Lemma PartialOrder_returns (data : kwargs) :
  "self" ∉ data.*1 →
  (∀ k, k ∈ data.*1 → data_descriptor PartialOrder (to_snake_case k) = None) →
  ∃ o, construct PartialOrder (PartialOrder_init to_snake_case) data = Ok o.
Proof.
  intros Hself Hfree. rewrite construct_plain by done.
  destruct (decide (List.length data < 2)%nat) as [Hlen|Hlen].
  - rewrite PartialOrder_init_placeholder by done. eauto.
  - rewrite PartialOrder_init_populated by (done || lia).
    destruct (field_loop_returns data (kept PartialOrder data) Hfree)
      as (s1 & H1 & Hcls1).
    unfold Transfer_init. rewrite H1. simpl.
    destruct (field_loop_returns data s1) as (s2 & H2 & _).
    + by rewrite Hcls1.
    + eauto.
Qed.

(** The constructors never change the class of the instance. *)
Lemma Transfer_init_cls self (data : kwargs) o :
  Transfer_init to_snake_case self data = Ok o → cls o = cls self.
Proof.
  apply (for_each_ind (λ t, cls t = cls self)); [|done].
  intros [k x] t t' _ Ht Hbody. apply setattr_cls in Hbody. congruence.
Qed.

Lemma PartialOrder_init_cls self (data : kwargs) o :
  PartialOrder_init to_snake_case self data = Ok o → cls o = cls self.
Proof.
  unfold PartialOrder_init. intros Hrun.
  apply bind_Ok in Hrun as (s1 & H1 & Hrun). apply setattr_cls in H1.
  apply bind_Ok in Hrun as ([] & _ & Hrun).
  - injection Hrun as <-. done.
  - apply bind_Ok in Hrun as (s2 & H2 & Hrun).
    apply Transfer_init_cls in H2.
    apply (for_each_ind (λ t, cls t = cls self)) in Hrun; [done| |congruence].
    intros [k x] t t' _ Ht Hbody. apply setattr_cls in Hbody. congruence.
Qed.

Lemma Order_init_cls self (data : kwargs) o :
  Order_init to_snake_case self data = Ok o → cls o = cls self.
Proof.
  unfold Order_init. intros Hrun.
  apply bind_Ok in Hrun as (s1 & H1 & Hrun).
  apply PartialOrder_init_cls in H1.
  apply bind_Ok in Hrun as ([] & _ & Hrun).
  - injection Hrun as <-. done.
  - apply (for_each_ind (λ t, cls t = cls self)) in Hrun; [done| |done].
    intros [k x] t t' _ Ht Hbody.
    repeat case_decide.
    + apply bind_Ok in Hbody as (d & _ & Hbody).
      apply bind_Ok in Hbody as (o' & _ & Hbody).
      apply setattr_cls in Hbody. congruence.
    + apply bind_Ok in Hbody as (d & _ & Hbody).
      apply bind_Ok in Hbody as (o' & _ & Hbody).
      apply setattr_cls in Hbody. congruence.
    + apply setattr_cls in Hbody. congruence.
Qed.

End constructors.

End order_build.

(** ** [order.py]: placeholders and hidden fields *)
Module order_spec.
Import py py_facts order order_facts order_build.

Section orders.
Context (to_snake_case : string → string)
        (auto_repr : instance → result string).

(** No key of [data] is normalised to a reserved name. *)
Lemma unreserved (data : kwargs) :
  Forall (λ k, to_snake_case k ∉ reserved) data.*1 →
  ∀ n, n ∈ reserved → ∀ k, k ∈ data.*1 → to_snake_case k ≠ n.
Proof.
  intros Hall n Hn k Hk Heq. rewrite Forall_forall in Hall.
  apply (Hall k Hk). by rewrite Heq.
Qed.

(** What a populated [PartialOrder] holds: every key has bound its
    attribute, and a name no key maps to is as [kept] has it. *)
Lemma PartialOrder_init_attrs c (data : kwargs) o :
  has_json c = true →
  (2 ≤ List.length data)%nat →
  (∀ k, k ∈ data.*1 → to_snake_case k ≠ "__dict__") →
  PartialOrder_init to_snake_case (new c) data = Ok o →
  cls o = c ∧
  (∀ n, (∀ k, k ∈ data.*1 → to_snake_case k ≠ n) →
        attrs o !! n = attrs (kept c data) !! n) ∧
  (∀ k, k ∈ data.*1 → is_Some (attrs o !! to_snake_case k)).
Proof.
  intros Hc Hlen Hplain Hrun.
  rewrite PartialOrder_init_populated in Hrun by done.
  apply bind_Ok in Hrun as (s1 & H1 & H2).
  pose proof (field_loop_assigns to_snake_case data Hplain) as Hloop.
  unfold Transfer_init in H1. split; [|split].
  - rewrite (assigns_cls Hloop _ _ H2), (assigns_cls Hloop _ _ H1). done.
  - intros n Hn.
    rewrite (assigns_other Hloop n _ _ Hn H2).
    by rewrite (assigns_other Hloop n _ _ Hn H1).
  - intros k Hk. by apply (assigns_binds Hloop k _ _ Hk H2).
Qed.

(** The same for a populated [Order], whose own loop binds [validity] and
    [volumes] under their wire names. *)
Lemma Order_init_attrs (data : kwargs) o :
  (2 ≤ List.length data)%nat →
  (∀ k, k ∈ data.*1 → to_snake_case k ≠ "__dict__") →
  Order_init to_snake_case (new Order) data = Ok o →
  cls o = Order ∧
  (∀ n, (∀ k, k ∈ data.*1 → to_snake_case k ≠ n) →
        n ≠ "validity" → n ≠ "volumes" →
        attrs o !! n = attrs (kept Order data) !! n) ∧
  (∀ k, k ∈ data.*1 → is_Some (attrs o !! to_snake_case k)).
Proof.
  intros Hlen Hplain Hrun.
  pose proof (Order_init_cls _ _ _ _ Hrun) as Hcls.
  unfold Order_init in Hrun.
  apply bind_Ok in Hrun as (s1 & H1 & Hrun).
  destruct (PartialOrder_init_attrs Order data s1 eq_refl Hlen Hplain H1)
    as (_ & Hother & Hbound).
  split; [done|].
  apply bind_Ok in Hrun as ([] & _ & Hrun).
  - injection Hrun as <-. split; [|done]. intros n Hn _ _. by apply Hother.
  - pose proof (Order_loop_assigns to_snake_case data Hplain) as Hloop.
    split.
    + intros n Hn Hvalidity Hvolumes.
      rewrite (assigns_other Hloop n s1 o); [by apply Hother| |done].
      intros k Hk. unfold Order_field.
      repeat case_decide; subst; try done. by apply Hn.
    + intros k Hk. eapply (assigns_keeps Hloop); [|exact Hrun].
      by apply Hbound.
Qed.

(** What either constructor returns for 2 or more keys, none of them
    normalised to a reserved name: the raw mapping and the method are in
    place, a name no key is normalised to is absent, and the name of every
    key is bound. *)
Lemma populated (data : kwargs) c o :
  (2 ≤ List.length data)%nat →
  Forall (λ k, to_snake_case k ∉ reserved) data.*1 →
  (c = PartialOrder ∧
   construct PartialOrder (PartialOrder_init to_snake_case) data = Ok o) ∨
  (c = Order ∧ construct Order (Order_init to_snake_case) data = Ok o) →
  cls o = c ∧
  attrs o !! raw_slot = Some (VJson (JObject data)) ∧
  attrs o !! "_is_error" = None ∧
  ((∀ k, k ∈ data.*1 → to_snake_case k ≠ "hash") → attrs o !! "hash" = None) ∧
  (∀ k, k ∈ data.*1 → is_Some (attrs o !! to_snake_case k)).
Proof.
  intros Hlen Hres Ho.
  pose proof (unreserved data Hres) as Hne.
  assert ("__dict__" ∈ reserved) as Hdict by (by left).
  assert (raw_slot ∈ reserved) as Hraw by (by right; left).
  assert ("_is_error" ∈ reserved) as Hmeth by (by right; right; left).
  destruct Ho as [[-> Ho]|[-> Ho]]; apply construct_Ok in Ho as [_ Ho].
  - destruct (PartialOrder_init_attrs PartialOrder data o)
      as (Hcls & Hother & Hbound); [done|done|by apply Hne|done|].
    split; [done|]. split; [|split; [|split; [|done]]].
    + rewrite Hother; [reflexivity|by apply Hne].
    + rewrite Hother; [reflexivity|by apply Hne].
    + intros Hhash. rewrite Hother; [reflexivity|done].
  - destruct (Order_init_attrs data o)
      as (Hcls & Hother & Hbound); [done|by apply Hne|done|].
    split; [done|]. split; [|split; [|split; [|done]]].
    + rewrite Hother; [reflexivity|by apply Hne|done|done].
    + rewrite Hother; [reflexivity|by apply Hne|done|done].
    + intros Hhash. rewrite Hother; [reflexivity|done|done|done].
Qed.

(** Without a [hash] in its dictionary an order renders as incomplete. *)
Lemma no_hash_incomplete o :
  has_json (cls o) = true →
  attrs o !! "_is_error" = None → attrs o !! "hash" = None →
  self_is_error o None = Ok true ∧
  incomplete auto_repr (class_name (cls o)) o.
Proof.
  intros Hc Hmeth Hhash.
  assert (self_is_error o None = Ok true) as Herr.
  { rewrite self_is_error_method by done.
    unfold PartialOrder_is_error. simpl. by rewrite hasattr_hash, Hhash. }
  split; [done|].
  unfold incomplete, repr, str_of, Order_repr, PartialOrder_repr,
    PartialOrder_str.
  rewrite Herr, getattr_hash, Hhash. simpl.
  destruct (cls o); try discriminate; (split; [done|split; [done|by eexists]]).
Qed.

(** With one, the rendering test passes and the read returns it. *)
Lemma hash_complete o v :
  has_json (cls o) = true →
  attrs o !! "_is_error" = None → attrs o !! "hash" = Some v →
  self_is_error o None = Ok false ∧ getattr o "hash" = Ok v.
Proof.
  intros Hc Hmeth Hhash. rewrite self_is_error_method by done.
  unfold PartialOrder_is_error. simpl.
  by rewrite hasattr_hash, getattr_hash, Hhash.
Qed.

(** The key-count test on an object that still holds its raw mapping. *)
Lemma is_error_by_count o (data : kwargs) :
  has_json (cls o) = true →
  attrs o !! "_is_error" = None →
  (2 ≤ List.length data)%nat →
  attrs o !! raw_slot = Some (VJson (JObject data)) →
  self_is_error o (Some data) = Ok false.
Proof.
  intros Hc Hmeth Hlen Hraw. rewrite self_is_error_method by done.
  unfold PartialOrder_is_error.
  destruct data as [|kv data]; [simpl in Hlen; lia|]. simpl not_init. cbv iota.
  rewrite getattr_raw_slot, Hraw. simpl.
  f_equal. apply Z.ltb_ge. simpl in Hlen. lia.
Qed.

(** *** The claims about orders *)

(** C4: for every mapping with fewer than 2 keys, what [PartialOrder] or
    [Order] returns is the object that the first statement of the
    constructor, [self.__json = data], leaves, and they do return it unless
    the key is [self], which the call itself rejects: no typed field is
    assigned, the instance dictionary holds the raw mapping and nothing
    else, the property [json] returns that mapping, and reading any typed
    field raises [AttributeError]. *)
Theorem placeholder_keeps_only_the_raw_mapping (data : kwargs) :
  (List.length data < 2)%nat →
  let raw := VJson (JObject data) in
  let partial := construct PartialOrder (PartialOrder_init to_snake_case) data in
  let order := construct Order (Order_init to_snake_case) data in
  (∀ o, partial = Ok o → o = kept PartialOrder data) ∧
  (∀ o, order = Ok o → o = kept Order data) ∧
  ("self" ∉ data.*1 →
   partial = Ok (kept PartialOrder data) ∧ order = Ok (kept Order data)) ∧
  ∀ c, has_json c = true →
    setattr (new c) raw_slot raw = Ok (kept c data) ∧
    attrs (kept c data) = {[ raw_slot := raw ]} ∧
    getattr (kept c data) "json" = Ok raw ∧
    Forall (λ f, raises_AttributeError (getattr (kept c data) f))
      (typed_fields c).
Proof.
  intros Hlen raw partial order. subst partial order.
  split; [|split; [|split]].
  - intros o [_ Ho]%construct_Ok.
    rewrite PartialOrder_init_placeholder in Ho by done. congruence.
  - intros o [_ Ho]%construct_Ok.
    rewrite Order_init_placeholder in Ho by done. congruence.
  - intros Hself. rewrite !construct_plain by done. split.
    + by apply PartialOrder_init_placeholder.
    + by apply Order_init_placeholder.
  - intros c Hc. split; [reflexivity|]. split; [reflexivity|]. split.
    + destruct c; try discriminate; reflexivity.
    + destruct c; try discriminate; cbv [typed_fields mro annotations mbind
        list_bind app];
        repeat (apply Forall_cons; split; [eexists; reflexivity|]);
        by apply Forall_nil.
Qed.

(** C1, as amended: for every mapping with 0 or 1 keys, the key not being
    [self], [PartialOrder] and [Order] return a placeholder, whose [repr]
    and [str] do not raise and say "Incomplete" and whose [hash] raises
    [AttributeError]; for every mapping with 2 or more keys of which one is
    normalised to [hash] and none to a reserved name, an object either
    constructor returns passes both placeholder tests as complete, and
    reading its [hash] returns a value. *)
Theorem placeholder_below_two_keys_hash_with_hash_key (data : kwargs) :
  let partial := construct PartialOrder (PartialOrder_init to_snake_case) data in
  let order := construct Order (Order_init to_snake_case) data in
  ((List.length data < 2)%nat → "self" ∉ data.*1 →
     ∃ p o, partial = Ok p ∧ order = Ok o ∧
            incomplete auto_repr "PartialOrder" p ∧
            incomplete auto_repr "Order" o) ∧
  ((2 ≤ List.length data)%nat →
     (∃ k, k ∈ data.*1 ∧ to_snake_case k = "hash") →
     Forall (λ k, to_snake_case k ∉ reserved) data.*1 →
     ∀ o, partial = Ok o ∨ order = Ok o →
          self_is_error o (Some data) = Ok false ∧
          self_is_error o None = Ok false ∧
          ∃ v, getattr o "hash" = Ok v).
Proof.
  intros partial order. subst partial order. split.
  - intros Hlen Hself. exists (kept PartialOrder data), (kept Order data).
    rewrite !construct_plain by done.
    split; [by apply PartialOrder_init_placeholder|].
    split; [by apply Order_init_placeholder|].
    split.
    + by apply (no_hash_incomplete (kept PartialOrder data)).
    + by apply (no_hash_incomplete (kept Order data)).
  - intros Hlen (k & Hk & Hhash) Hres o Ho.
    assert (∃ c, has_json c = true ∧
              ((c = PartialOrder ∧
                construct PartialOrder (PartialOrder_init to_snake_case) data
                = Ok o) ∨
               (c = Order ∧
                construct Order (Order_init to_snake_case) data = Ok o)))
      as (c & Hc & Hrun).
    { destruct Ho; [exists PartialOrder|exists Order]; auto. }
    destruct (populated data c o Hlen Hres Hrun)
      as (Hcls & Hraw & Hmeth & _ & Hbound).
    rewrite <- Hcls in Hc.
    destruct (Hbound k Hk) as [v Hv]. rewrite Hhash in Hv.
    split; [by apply is_error_by_count|].
    destruct (hash_complete o v Hc Hmeth Hv) as [Herr Hget]. eauto.
Qed.


(** Reading [is_idempotent] on any instance of [Order] raises. *)
Lemma Order_getattribute_is_idempotent self :
  cls self = Order →
  getattr self "is_idempotent"
  = Raise (AttributeError
             "type object 'Order' has no attribute 'is_idempotent'").
Proof. unfold getattr. intros ->. reflexivity. Qed.

(** C2: on every [Order] a mapping constructs, placeholder or populated,
    with or without the wire key [isIdempotent], reading [is_idempotent]
    raises the [AttributeError] of [Order.__getattribute__]. *)
Theorem Order_hides_is_idempotent (data : kwargs) o :
  construct Order (Order_init to_snake_case) data = Ok o →
  cls o = Order ∧
  getattr o "is_idempotent"
  = Raise (AttributeError
             "type object 'Order' has no attribute 'is_idempotent'").
Proof.
  intros [_ Ho]%construct_Ok. apply Order_init_cls in Ho. simpl in Ho.
  split; [done|]. by apply Order_getattribute_is_idempotent.
Qed.

End orders.

(** *** The claims on the payloads of [samples] *)

Import samples.

Lemma placeholder_keeps_only_the_raw_mapping_witness :
  (List.length error_response < 2)%nat ∧
  construct PartialOrder (PartialOrder_init helpers.to_snake_case)
    error_response = Ok (kept PartialOrder error_response) ∧
  construct Order (Order_init helpers.to_snake_case) error_response
  = Ok (kept Order error_response) ∧
  getattr (kept Order error_response) "json"
  = Ok (VJson (JObject error_response)) ∧
  Forall (λ f, raises_AttributeError (getattr (kept Order error_response) f))
    (typed_fields Order).
Proof.
  assert (List.length error_response < 2)%nat as Hlen by (simpl; lia).
  assert ("self" ∉ error_response.*1) as Hself
    by (apply (bool_decide_unpack _); vm_compute; exact I).
  split; [exact Hlen|].
  destruct (placeholder_keeps_only_the_raw_mapping helpers.to_snake_case
              error_response Hlen) as (_ & _ & Hrun & Hkept).
  destruct (Hrun Hself) as [Hp Ho].
  destruct (Hkept Order eq_refl) as (_ & _ & Hjson & Hfields).
  exact (conj Hp (conj Ho (conj Hjson Hfields))).
Defined.

Lemma placeholder_below_two_keys_hash_with_hash_key_witness :
  ((List.length error_response < 2)%nat ∧ ("self" ∉ error_response.*1) ∧
   ∃ p o,
     construct PartialOrder (PartialOrder_init helpers.to_snake_case)
       error_response = Ok p ∧
     construct Order (Order_init helpers.to_snake_case) error_response
     = Ok o ∧
     incomplete class_repr "PartialOrder" p ∧
     incomplete class_repr "Order" o) ∧
  ((2 ≤ List.length full_order)%nat ∧
   (∃ k, k ∈ full_order.*1 ∧ helpers.to_snake_case k = "hash") ∧
   Forall (λ k, helpers.to_snake_case k ∉ reserved) full_order.*1 ∧
   ∃ o, construct Order (Order_init helpers.to_snake_case) full_order = Ok o ∧
        self_is_error o (Some full_order) = Ok false ∧
        self_is_error o None = Ok false ∧
        ∃ v, getattr o "hash" = Ok v).
Proof.
  assert (List.length error_response < 2)%nat as Hshort by (simpl; lia).
  assert (2 ≤ List.length full_order)%nat as Hlong by (simpl; lia).
  assert (∃ k, k ∈ full_order.*1 ∧ helpers.to_snake_case k = "hash") as Hkey.
  { exists "hash". split; [by left | reflexivity]. }
  assert (Forall (λ k, helpers.to_snake_case k ∉ reserved) full_order.*1)
    as Hres by (apply (bool_decide_unpack _); vm_compute; exact I).
  assert ("self" ∉ error_response.*1) as Hself
    by (apply (bool_decide_unpack _); vm_compute; exact I).
  split.
  - split; [exact Hshort|]. split; [exact Hself|].
    exact (proj1 (placeholder_below_two_keys_hash_with_hash_key
                    helpers.to_snake_case class_repr error_response)
             Hshort Hself).
  - split; [exact Hlong|]. split; [exact Hkey|]. split; [exact Hres|].
    destruct (construct Order (Order_init helpers.to_snake_case) full_order)
      as [o|e] eqn:Ho; [|vm_compute in Ho; discriminate].
    exists o. split; [reflexivity|].
    apply (proj2 (placeholder_below_two_keys_hash_with_hash_key
                    helpers.to_snake_case class_repr full_order)
             Hlong Hkey Hres o).
    right. exact Ho.
Defined.

(** Against C1 as stated: a mapping with 2 keys constructs a [PartialOrder]
    and an [Order] on which reading [hash] raises [AttributeError]. *)
Lemma hash_read_fails_on_two_keys :
  (2 ≤ List.length sparse_order)%nat ∧
  ∃ p o,
    construct PartialOrder (PartialOrder_init helpers.to_snake_case)
      sparse_order = Ok p ∧
    construct Order (Order_init helpers.to_snake_case) sparse_order = Ok o ∧
    getattr p "hash"
    = Raise (AttributeError "'PartialOrder' object has no attribute 'hash'") ∧
    getattr o "hash"
    = Raise (AttributeError "'Order' object has no attribute 'hash'").
Proof.
  split; [simpl; lia|].
  eexists _, _. split; [vm_compute; reflexivity|].
  split; [vm_compute; reflexivity|]. split; reflexivity.
Qed.



Lemma Order_hides_is_idempotent_witness :
  ∃ o, construct Order (Order_init helpers.to_snake_case) full_order = Ok o ∧
       cls o = Order ∧
       getattr o "is_idempotent"
       = Raise (AttributeError
                  "type object 'Order' has no attribute 'is_idempotent'").
Proof.
  destruct (construct Order (Order_init helpers.to_snake_case) full_order)
    as [o|e] eqn:Ho; [|vm_compute in Ho; discriminate].
  exists o. split; [reflexivity|].
  exact (Order_hides_is_idempotent helpers.to_snake_case full_order o Ho).
Defined.

(** [Transfer] and [PartialOrder] do expose the field: on the same payload
    each returns it, and an [Order] raises. *)
Example is_idempotent_on_PartialOrder_and_Order :
  (∃ p, construct PartialOrder (PartialOrder_init helpers.to_snake_case)
          partial_order = Ok p ∧
        getattr p "is_idempotent" = Ok (VJson (JBool false))) ∧
  (∃ t, construct Transfer (Transfer_init helpers.to_snake_case)
          partial_order = Ok t ∧
        getattr t "is_idempotent" = Ok (VJson (JBool false))) ∧
  (∃ o, construct Order (Order_init helpers.to_snake_case) partial_order
        = Ok o ∧
        raises_AttributeError (getattr o "is_idempotent")).
Proof.
  split; [|split]; eexists; (split; [vm_compute; reflexivity|]).
  - reflexivity.
  - reflexivity.
  - eexists. reflexivity.
Qed.

(** A key normalised to the name of the method: the [PartialOrder] is
    built, and rendering it raises [TypeError]; the [Order] is not built. *)
Example key_named_as_the_method :
  let data := [("hash", JStr "0x1"); ("_is_error", JBool false)] in
  (∃ p, construct PartialOrder (PartialOrder_init helpers.to_snake_case) data
        = Ok p ∧
        repr class_repr p = Raise (TypeError "object is not callable")) ∧
  construct Order (Order_init helpers.to_snake_case) data
  = Raise (TypeError "object is not callable").
Proof.
  split; [eexists; split|]; vm_compute; reflexivity.
Qed.

End order_spec.

(** ** [order.py]: the order book *)
Module book_spec.
Import py py_facts order order_facts samples.

(** The four items of a level bind [price], [size], [volume], [quantity],
    in that order. *)
Lemma _OrderBookOrder_init_fields c (price size volume quantity : json) s v q :
  int size = Ok s → int volume = Ok v → int quantity = Ok q →
  _OrderBookOrder_init (new c) [price; size; volume; quantity]
  = Ok (Instance c
          (<["volume" := VJson (JInt v)]>
             (<["size" := VJson (JInt s)]>
                (<["quantity" := VJson (JInt q)]>
                   {[ "price" := VJson price ]})))).
Proof.
  intros Hs Hv Hq. unfold _OrderBookOrder_init.
  rewrite Hq, Hs, Hv. destruct c; reflexivity.
Qed.

(** The running sum of [OrderBook.__len__]. *)
Lemma sum_of_quantities (os : list value) (qs : list Z) (acc : Z) :
  Forall2 (λ o q, quantity_of o = Ok (VJson (JInt q))) os qs →
  for_each (λ o acc, q ← quantity_of o; add acc q) os acc
  = Ok (acc + foldr Z.add 0 qs).
Proof.
  intros Hall. revert acc.
  induction Hall as [|o q os qs Hq _ IH]; intros acc; simpl.
  - f_equal. lia.
  - rewrite Hq. simpl. rewrite IH. f_equal. lia.
Qed.

(** The length of a book is the sum of [quantity] over its asks, then its
    bids. *)
Lemma OrderBook_len_sum self (asks bids : list value) (qa qb : list Z) :
  cls self = OrderBook →
  attrs self !! "asks" = Some (VList asks) →
  attrs self !! "bids" = Some (VList bids) →
  Forall2 (λ o q, quantity_of o = Ok (VJson (JInt q))) asks qa →
  Forall2 (λ o q, quantity_of o = Ok (VJson (JInt q))) bids qb →
  OrderBook_len self = Ok (foldr Z.add 0 qa + foldr Z.add 0 qb).
Proof.
  intros Hcls Hasks Hbids Ha Hb. destruct self as [c d]. simpl in *. subst c.
  unfold OrderBook_len, getattr, object_getattribute, instance_or_type_attr.
  simpl. rewrite Hasks. simpl. rewrite Hbids. simpl.
  rewrite (sum_of_quantities (asks ++ bids) (qa ++ qb)).
  - f_equal. rewrite foldr_app.
    assert (∀ l a, foldr Z.add a l = a + foldr Z.add 0 l) as Hshift.
    { induction l as [|x l IH]; intros a; simpl; [lia|].
      rewrite (IH a). lia. }
    rewrite (Hshift qa). lia.
  - by apply Forall2_app.
Qed.

(** C3, as amended: the items of a level are read as price, size, volume,
    quantity.  Where the normaliser leaves [asks] and [bids] as they are,
    constructing an [OrderBook] from one ask [[price, size, volume, "2"]]
    and one bid [[price, size, volume, "1"]] whose sizes and volumes [int]
    accepts returns a book with exactly one [Ask], of quantity 2, and one
    [Bid], of quantity 1, and of length 3. *)
Theorem OrderBook_of_levels_with_quantity_last
    (to_snake_case : string → string)
    (price_a size_a volume_a price_b size_b volume_b : json)
    (sa va sb vb : Z) :
  to_snake_case "asks" = "asks" → to_snake_case "bids" = "bids" →
  int size_a = Ok sa → int volume_a = Ok va →
  int size_b = Ok sb → int volume_b = Ok vb →
  ∃ o a b,
    construct OrderBook (OrderBook_init to_snake_case)
      [("asks", JList [JList [price_a; size_a; volume_a; JStr "2"]]);
       ("bids", JList [JList [price_b; size_b; volume_b; JStr "1"]])]
    = Ok o ∧
    side_of o "asks" = Ok [VInstance Ask a] ∧
    side_of o "bids" = Ok [VInstance Bid b] ∧
    getattr (Instance Ask a) "quantity" = Ok (VJson (JInt 2)) ∧
    getattr (Instance Bid b) "quantity" = Ok (VJson (JInt 1)) ∧
    OrderBook_len o = Ok 3.
Proof.
  intros Hasks Hbids Hsa Hva Hsb Hvb.
  eexists _, _, _. split.
  { rewrite construct_plain
      by (apply (bool_decide_unpack _); vm_compute; exact I).
    unfold OrderBook_init, book_orders.
    cbn -[_OrderBookOrder_init].
    rewrite (_OrderBookOrder_init_fields Ask price_a size_a volume_a
               (JStr "2") sa va 2 Hsa Hva eq_refl).
    cbn -[_OrderBookOrder_init]. rewrite Hasks.
    rewrite (_OrderBookOrder_init_fields Bid price_b size_b volume_b
               (JStr "1") sb vb 1 Hsb Hvb eq_refl).
    simpl. rewrite Hbids. reflexivity. }
  split; [reflexivity|]. split; [reflexivity|].
  split; [reflexivity|]. split; [reflexivity|].
  refine (OrderBook_len_sum _ _ _ [2] [1] _ _ _ _ _); try reflexivity.
  - apply Forall2_cons; split; [reflexivity|]. by apply Forall2_nil.
  - apply Forall2_cons; split; [reflexivity|]. by apply Forall2_nil.
Qed.

Lemma OrderBook_of_levels_with_quantity_last_witness :
  helpers.to_snake_case "asks" = "asks" ∧
  helpers.to_snake_case "bids" = "bids" ∧
  int (JStr "10") = Ok 10 ∧ int (JStr "200") = Ok 200 ∧
  int (JStr "5") = Ok 5 ∧ int (JStr "99") = Ok 99 ∧
  ∃ o a b,
    construct OrderBook (OrderBook_init helpers.to_snake_case)
      book_quantity_last = Ok o ∧
    side_of o "asks" = Ok [VInstance Ask a] ∧
    side_of o "bids" = Ok [VInstance Bid b] ∧
    getattr (Instance Ask a) "quantity" = Ok (VJson (JInt 2)) ∧
    getattr (Instance Bid b) "quantity" = Ok (VJson (JInt 1)) ∧
    OrderBook_len o = Ok 3.
Proof.
  repeat (split; [reflexivity|]).
  exact (OrderBook_of_levels_with_quantity_last helpers.to_snake_case
           (JStr "100.5") (JStr "10") (JStr "200")
           (JStr "99.5") (JStr "5") (JStr "99") 10 200 5 99
           eq_refl eq_refl eq_refl eq_refl eq_refl eq_refl).
Defined.

(** Against C3 as stated: with the levels written price, quantity, size,
    volume, the bid's fourth item, "99.5", is what [int] is given for the
    quantity, and the constructor raises [ValueError]; the ask alone gives a
    book whose one [Ask] has quantity 200, size 2 and volume 10, and whose
    length is 200. *)
Lemma quantity_is_not_the_second_item :
  construct OrderBook (OrderBook_init helpers.to_snake_case)
    book_quantity_second
  = Raise (ValueError "invalid literal for int() with base 10") ∧
  ∃ o a,
    construct OrderBook (OrderBook_init helpers.to_snake_case)
      asks_quantity_second = Ok o ∧
    side_of o "asks" = Ok [VInstance Ask a] ∧
    getattr (Instance Ask a) "quantity" = Ok (VJson (JInt 200)) ∧
    getattr (Instance Ask a) "size" = Ok (VJson (JInt 2)) ∧
    getattr (Instance Ask a) "volume" = Ok (VJson (JInt 10)) ∧
    OrderBook_len o = Ok 200.
Proof.
  split; [vm_compute; reflexivity|].
  eexists _, _. split; [vm_compute; reflexivity|].
  repeat split; vm_compute; reflexivity.
Qed.

End book_spec.

(** ** [util/helpers.py]: field-name normalisation *)
Module helpers_spec.
Import helpers.

Lemma lower_upper_inj (c d : ascii) :
  is_upper c = true → is_upper d = true → lower c = lower d → c = d.
Proof.
  unfold lower, is_upper. intros Hc Hd. rewrite Hc, Hd. intros Heq.
  apply andb_prop in Hc as [Hc1 Hc2]. apply andb_prop in Hd as [Hd1 Hd2].
  apply N.leb_le in Hc1, Hc2, Hd1, Hd2.
  apply (f_equal N_of_ascii) in Heq.
  rewrite !N_ascii_embedding in Heq by lia.
  rewrite <- (ascii_N_embedding c), <- (ascii_N_embedding d).
  f_equal. lia.
Qed.

Lemma snake_tail_inj (a b : string) :
  no_underscore a = true → no_underscore b = true →
  snake_tail a = snake_tail b → a = b.
Proof.
  revert b. induction a as [|c a IH]; intros [|d b]; simpl; try done.
  - destruct (is_upper d); discriminate.
  - destruct (is_upper c); discriminate.
  - intros [Hc Ha]%andb_prop [Hd Hb]%andb_prop.
    apply negb_true_iff, Ascii.eqb_neq in Hc, Hd.
    destruct (is_upper c) eqn:Huc, (is_upper d) eqn:Hud.
    + intros [= Hl Ht]. f_equal; [by apply lower_upper_inj | by apply IH].
    + intros [= <- _]. done.
    + intros [= -> _]. done.
    + intros [= -> Ht]. f_equal. by apply IH.
Qed.

(** On camelCase identifiers no two names are normalised to the same. *)
Lemma to_snake_case_inj (a b : string) :
  camel a = true → camel b = true →
  to_snake_case a = to_snake_case b → a = b.
Proof.
  destruct a as [|c a], b as [|d b]; simpl; try done.
  intros [Hc [_ Ha]%andb_prop]%andb_prop [Hd [_ Hb]%andb_prop]%andb_prop.
  apply negb_true_iff in Hc, Hd. unfold lower. rewrite Hc, Hd.
  intros [= -> Ht]. f_equal. by apply snake_tail_inj.
Qed.

Lemma wire_fields_camel : Forall (λ s, camel s = true) wire_fields.
Proof.
  unfold wire_fields.
  repeat (apply Forall_cons; split; [reflexivity|]). by apply Forall_nil.
Qed.

(** C5: the normalisation is a function, defined on every string with one
    result; it maps [orderHash] to [order_hash] and [accountId] to
    [account_id]; and two different wire field names of the API are never
    normalised to the same attribute name. *)
Theorem to_snake_case_on_wire_fields :
  to_snake_case "orderHash" = "order_hash" ∧
  to_snake_case "accountId" = "account_id" ∧
  (∀ s, ∃ r, to_snake_case s = r ∧ ∀ r', to_snake_case s = r' → r' = r) ∧
  (∀ a b, a ∈ wire_fields → b ∈ wire_fields → a ≠ b →
          to_snake_case a ≠ to_snake_case b).
Proof.
  split; [reflexivity|]. split; [reflexivity|]. split.
  - intros s. exists (to_snake_case s). split; [reflexivity|]. by intros r' <-.
  - intros a b Ha Hb Hne Heq. apply Hne.
    pose proof wire_fields_camel as Hcamel. rewrite Forall_forall in Hcamel.
    apply to_snake_case_inj; auto.
Qed.

Lemma to_snake_case_on_wire_fields_witness :
  "orderHash" ∈ wire_fields ∧ "accountId" ∈ wire_fields ∧
  "orderHash" ≠ "accountId" ∧
  to_snake_case "orderHash" ≠ to_snake_case "accountId".
Proof.
  assert ("orderHash" ∈ wire_fields) as Ha.
  { unfold wire_fields. do 11 apply list_elem_of_further.
    apply list_elem_of_here. }
  assert ("accountId" ∈ wire_fields) as Hb by apply list_elem_of_here.
  assert ("orderHash" ≠ "accountId") as Hne by discriminate.
  split; [exact Ha|]. split; [exact Hb|]. split; [exact Hne|].
  exact (proj2 (proj2 (proj2 to_snake_case_on_wire_fields))
           "orderHash" "accountId" Ha Hb Hne).
Defined.

End helpers_spec.

(** ** [client.py]: argument checks and the session *)
Module client_spec.
Import py py_facts client samples.

Lemma getitem_missing (d : kwargs) (key : string) :
  key ∉ d.*1 → getitem d key = Raise (KeyError key).
Proof.
  intros Hkey. unfold getitem.
  destruct (list_find _ d) as [[i [k v]]|] eqn:Hfind; [|done].
  apply list_find_Some in Hfind as (Hi & Hk & _). simpl in Hk.
  apply String.eqb_eq in Hk. subst k. exfalso. apply Hkey.
  apply list_elem_of_fmap. exists (key, v). split; [done|].
  by eapply list_elem_of_lookup_2.
Qed.

Lemma getitem_first (d : kwargs) (key : string) (v : json) :
  getitem ((key, v) :: d) key = Ok v.
Proof. unfold getitem. simpl. by rewrite String.eqb_refl. Qed.

(** The constructor sends nothing, whatever it returns. *)
Lemma Client_init_sends_nothing
    (account_id api_key endpoint handle_errors : json) (config : kwargs) log :
  (Client_init account_id api_key endpoint handle_errors config log).2 = log.
Proof.
  unfold Client_init, mbind, io_bind, lift, raise, mret, io_ret.
  destruct (bind_keywords config) as [config'|e]; [|done].
  destruct (getitem config' "config") as [cfg|e]; [|done].
  destruct (dict_get cfg "account_id") as [a|e]; [|done].
  destruct (negb (truthy (or_else a account_id))); [done|].
  destruct (dict_get cfg "api_key") as [k|e]; [|done].
  destruct (negb (truthy (or_else k api_key))); [done|].
  destruct (dict_get cfg "endpoint") as [e|e']; [|done].
  by destruct (negb (truthy (or_else e endpoint))).
Qed.

(** X17: With a [config] mapping, a missing account id, API key or endpoint
    raises [InvalidArguments], in that order of precedence. *)
Lemma Client_init_missing_configuration
    (account_id api_key endpoint handle_errors : json)
    (cfg rest : kwargs) log :
  "self" ∉ rest.*1 →
  let config := ("config", JObject cfg) :: rest in
  let given name arg :=
    match dict_get (JObject cfg) name with
    | Ok v => truthy (or_else v arg)
    | Raise _ => false
    end in
  let run := Client_init account_id api_key endpoint handle_errors config log in
  (given "account_id" account_id = false →
     run = (Raise (InvalidArguments "Missing account ID from config."), log)) ∧
  (given "account_id" account_id = true →
   given "api_key" api_key = false →
     run = (Raise (InvalidArguments "Missing API Key from config."), log)) ∧
  (given "account_id" account_id = true →
   given "api_key" api_key = true →
   given "endpoint" endpoint = false →
     run = (Raise (InvalidArguments "Missing endpoint from config."), log)).
Proof.
  intros Hself config given run. subst run given config.
  unfold Client_init, mbind, io_bind, lift, raise, mret, io_ret.
  rewrite bind_keywords_plain.
  2:{ simpl. apply not_elem_of_cons. split; [discriminate|done]. }
  rewrite getitem_first. unfold dict_get.
  destruct (getitem cfg "account_id") as [a|ea];
    destruct (getitem cfg "api_key") as [k|ek];
    destruct (getitem cfg "endpoint") as [e|ee];
    repeat split; intros; simpl;
    repeat match goal with H : _ = _ |- _ => rewrite H; simpl end; done.
Qed.

Section methods.
Context (STORAGE_ID ORDER : json)
        (raise_errors_in : json → result unit)
        (to_snake_case : string → string)
        (respond : list request → request → result json).

(** Without its argument a lookup raises [InvalidArguments] and sends
    nothing. *)
Lemma lookups_need_their_argument (self : Client) log :
  get_next_storage_id STORAGE_ID raise_errors_in respond self JNull log
  = (Raise (InvalidArguments "Missing 'sellTokenID' argument."), log) ∧
  get_order_details ORDER raise_errors_in to_snake_case respond self JNull log
  = (Raise (InvalidArguments "Missing 'orderhash' argument."), log).
Proof. split; reflexivity. Qed.

(** C9: every falsy [sell_token_id], 0 among them, is treated as the
    absent argument: [get_next_storage_id] raises the same
    [InvalidArguments] as for [None] and sends no request. *)
Theorem get_next_storage_id_rejects_falsy (self : Client) (x : json) log :
  truthy x = false →
  get_next_storage_id STORAGE_ID raise_errors_in respond self x log
  = (Raise (InvalidArguments "Missing 'sellTokenID' argument."), log) ∧
  get_next_storage_id STORAGE_ID raise_errors_in respond self x log
  = get_next_storage_id STORAGE_ID raise_errors_in respond self JNull log.
Proof.
  intros Hx. unfold get_next_storage_id. rewrite Hx. simpl. done.
Qed.

End methods.

(** C8: without a [config] keyword, whatever [account_id], [api_key] and
    [endpoint] are given, and whatever other keywords the call binds, the
    constructor raises [KeyError] for "config", before the checks for a
    missing configuration and without sending anything. *)
Theorem Client_init_without_config_raises_KeyError
    (account_id api_key endpoint handle_errors : json) (config : kwargs) log :
  "config" ∉ config.*1 → "self" ∉ config.*1 →
  Client_init account_id api_key endpoint handle_errors config log
  = (Raise (KeyError "config"), log).
Proof.
  intros Hconfig Hself.
  unfold Client_init, mbind, io_bind, lift.
  rewrite bind_keywords_plain by done.
  by rewrite getitem_missing.
Qed.

Lemma Client_init_without_config_raises_KeyError_witness :
  ("config" ∉ ([] : kwargs).*1) ∧ ("self" ∉ ([] : kwargs).*1) ∧
  Client_init (JInt 12345) (JStr "sra1aavfa") (JStr "https://api3.loopring.io")
    (JBool true) [] []
  = (Raise (KeyError "config"), []).
Proof.
  assert ("config" ∉ ([] : kwargs).*1) as Hconfig by apply not_elem_of_nil.
  assert ("self" ∉ ([] : kwargs).*1) as Hself by apply not_elem_of_nil.
  split; [exact Hconfig|]. split; [exact Hself|].
  exact (Client_init_without_config_raises_KeyError
           (JInt 12345) (JStr "sra1aavfa") (JStr "https://api3.loopring.io")
           (JBool true) [] [] Hconfig Hself).
Defined.

(** C6, on the call it fails at: [Client()] with no argument at all has no
    account id, API key or endpoint, and raises [KeyError], not
    [InvalidArguments]; nothing is sent. *)
Theorem Client_init_without_arguments log :
  Client_init JNull JNull JNull (JBool true) [] log
  = (Raise (KeyError "config"), log).
Proof. reflexivity. Qed.

(** C7: closing twice raises neither time, leaves the session closed, and
    the second call changes nothing. *)
Theorem Client_close_twice (self : Client) :
  let first := Client_close self in
  let second := Client_close first.2 in
  first.1 = Ok () ∧ second.1 = Ok () ∧
  closed (_session second.2) = true ∧
  second.2 = first.2.
Proof.
  destruct self as [h a k e [[]]]; simpl; done.
Qed.

Lemma get_next_storage_id_rejects_falsy_witness :
  truthy (JInt 0) = false ∧
  get_next_storage_id storage_id_path no_errors silent_relayer
    open_client (JInt 0) []
  = (Raise (InvalidArguments "Missing 'sellTokenID' argument."), []).
Proof.
  split; [reflexivity|].
  exact (proj1 (get_next_storage_id_rejects_falsy
                  storage_id_path no_errors silent_relayer
                  open_client (JInt 0) [] eq_refl)).
Defined.

End client_spec.

(** * Further properties *)

(** ** Loops *)
Module loop_facts.
Import py py_facts order order_facts.

Lemma for_each_app {A S} (body : A → S → result S) xs ys s :
  for_each body (xs ++ ys) s = for_each body xs s ≫= for_each body ys.
Proof.
  revert s. induction xs as [|x xs IH]; intros s; simpl; [done|].
  destruct (body x s) as [s1|e]; simpl; [apply IH|done].
Qed.

(** A loop that returns has returned from every round. *)
Lemma for_each_rounds {A S} (body : A → S → result S) xs x s s' :
  x ∈ xs → for_each body xs s = Ok s' → ∃ t t', body x t = Ok t'.
Proof.
  revert s. induction xs as [|y xs IH]; intros s Hin; simpl.
  - by apply elem_of_nil in Hin.
  - intros Hrun. apply bind_Ok in Hrun as (s1 & H1 & Hrest).
    apply elem_of_cons in Hin as [->|Hin]; [eauto|]. by eapply IH.
Qed.

(** The same, with a property the rounds keep. *)
Lemma for_each_rounds_inv {A S} (P : S → Prop) (body : A → S → result S)
    xs x s s' :
  (∀ y t t', y ∈ xs → P t → body y t = Ok t' → P t') →
  P s → x ∈ xs → for_each body xs s = Ok s' →
  ∃ t t', P t ∧ body x t = Ok t'.
Proof.
  revert s. induction xs as [|y xs IH]; intros s Hkeep Hs Hin; simpl.
  - by apply elem_of_nil in Hin.
  - intros Hrun. apply bind_Ok in Hrun as (s1 & H1 & Hrest).
    apply elem_of_cons in Hin as [->|Hin]; [eauto|].
    eapply (IH s1); [| |done|done].
    + intros z t t' Hz. apply Hkeep. by right.
    + eapply Hkeep; [by left|done|done].
Qed.

Lemma collect_rounds {A B} (f : A → result B) xs x ys :
  x ∈ xs → collect f xs = Ok ys → ∃ y, f x = Ok y.
Proof.
  revert ys. induction xs as [|z xs IH]; intros ys Hin; simpl.
  - by apply elem_of_nil in Hin.
  - intros Hrun. apply bind_Ok in Hrun as (y & Hy & Hrest).
    apply bind_Ok in Hrest as (ys' & Hys & _).
    apply elem_of_cons in Hin as [->|Hin]; [eauto|]. by eapply IH.
Qed.

Lemma collect_Forall2 {A B} (f : A → result B) (R : A → B → Prop) xs :
  (∀ x y, x ∈ xs → f x = Ok y → R x y) →
  ∀ ys, collect f xs = Ok ys → Forall2 R xs ys.
Proof.
  induction xs as [|x xs IH]; intros HR ys; simpl.
  - intros [= <-]. constructor.
  - intros Hrun. apply bind_Ok in Hrun as (y & Hy & Hrest).
    apply bind_Ok in Hrest as (ys' & Hys & [= <-]).
    constructor.
    + apply HR; [by left|done].
    + apply IH; [|done]. intros z w Hz. apply HR. by right.
Qed.

Lemma assigns_subset field body (data data' : kwargs) :
  data' ⊆ data → assigns field body data → assigns field body data'.
Proof. intros Hsub Hassigns k x s s' Hin. apply Hassigns. by apply Hsub. Qed.

(** The attribute a round binds keeps its value when no later round binds
    the same name. *)
Lemma assigns_last field body (pre post : kwargs) k x w s s' :
  assigns field body (pre ++ (k, x) :: post) →
  (∀ k', k' ∈ post.*1 → field k' ≠ field k) →
  (∀ t t', body (k, x) t = Ok t' → attrs t' !! field k = Some w) →
  for_each body (pre ++ (k, x) :: post) s = Ok s' →
  attrs s' !! field k = Some w.
Proof.
  intros Hassigns Hpost Hround Hrun.
  rewrite for_each_app in Hrun. apply bind_Ok in Hrun as (s1 & _ & Hrun).
  simpl in Hrun. apply bind_Ok in Hrun as (s2 & H2 & Hrun).
  assert (assigns field body post) as Hassigns'.
  { eapply assigns_subset; [|exact Hassigns].
    intros y Hy. apply elem_of_app. right. by right. }
  rewrite (assigns_other Hassigns' (field k) s2 s' Hpost Hrun).
  by eapply Hround.
Qed.

(** An assignment that returns outside [__dict__] has met no descriptor. *)
Lemma setattr_Ok_free self name v self' :
  name ≠ "__dict__" → setattr self name v = Ok self' →
  data_descriptor (cls self) name = None.
Proof.
  intros Hname. unfold setattr.
  destruct (data_descriptor _ _) as [[]|] eqn:Hd; try discriminate; [|done].
  by apply data_descriptor_dict in Hd.
Qed.

(** Reading a name no descriptor guards, on a class other than [Order] or
    for a name other than [is_idempotent], looks in the dictionary. *)
Lemma getattr_stored self name v :
  data_descriptor (cls self) name = None →
  cls self ≠ Order ∨ name ≠ "is_idempotent" →
  attrs self !! name = Some v →
  getattr self name = Ok v.
Proof.
  intros Hfree Hname Hv.
  assert (object_getattribute self name = Ok v) as Hobj.
  { unfold object_getattribute, instance_or_type_attr. by rewrite Hfree, Hv. }
  unfold getattr, Order_getattribute.
  destruct (cls self) eqn:Hcls; try done.
  case_decide; [|done]. destruct Hname; congruence.
Qed.

End loop_facts.

(** ** [order.py]: what a constructed object gives back *)
Module order_more_spec.
Import py py_facts order order_facts order_build order_spec loop_facts
  order_more.

Section read_back.
Context (to_snake_case : string → string).

(** The loop of [Transfer.__init__], which [Volume.__init__] and
    [PartialOrder.__init__] repeat: the value of a key is stored under its
    name when no later key takes the name. *)
Lemma field_loop_last (pre post : kwargs) (k : string) (v : json) s s' :
  (∀ k', k' ∈ ((pre ++ (k, v) :: post)%list).*1 → to_snake_case k' ≠ "__dict__") →
  (∀ k', k' ∈ post.*1 → to_snake_case k' ≠ to_snake_case k) →
  for_each (λ '(k, x) self, setattr self (to_snake_case k) (VJson x))
    (pre ++ (k, v) :: post)%list s = Ok s' →
  cls s' = cls s ∧
  data_descriptor (cls s) (to_snake_case k) = None ∧
  attrs s' !! to_snake_case k = Some (VJson v).
Proof.
  intros Hplain Hpost Hrun.
  pose proof (field_loop_assigns to_snake_case _ Hplain) as Hloop.
  assert (to_snake_case k ≠ "__dict__") as Hk.
  { apply Hplain. rewrite fmap_app, fmap_cons. apply elem_of_app.
    right. by left. }
  split; [by apply (assigns_cls Hloop _ _ Hrun)|]. split.
  - pose proof Hrun as Hround.
    eapply (for_each_rounds_inv (λ t, cls t = cls s)) with (x := (k, v))
      in Hround as (t & t' & Ht & Hround).
    + rewrite <- Ht. by eapply setattr_Ok_free.
    + intros [k' x'] t t' _ Ht Hbody. apply setattr_cls in Hbody. congruence.
    + done.
    + apply elem_of_app. right. by left.
  - apply (assigns_last _ _ pre post k v (VJson v) s s' Hloop Hpost); [|done].
    intros t t' Hbody. simpl in Hbody.
    rewrite (setattr_attrs _ _ _ _ Hk Hbody). by rewrite lookup_insert_eq.
Qed.

(** X1: [Transfer] and [Volume] give back what they were given: on the object
    either constructor returns, whatever the number of keys, the value of a
    key reads back unchanged under the normalised name, provided no later
    key is normalised to the same name and none to [__dict__]. *)
Theorem Transfer_and_Volume_read_back (pre post : kwargs) (k : string)
    (v : json) o :
  let data := (pre ++ (k, v) :: post)%list in
  (∀ k', k' ∈ data.*1 → to_snake_case k' ≠ "__dict__") →
  (∀ k', k' ∈ post.*1 → to_snake_case k' ≠ to_snake_case k) →
  construct Transfer (Transfer_init to_snake_case) data = Ok o ∨
  construct Volume (Volume_init to_snake_case) data = Ok o →
  getattr o (to_snake_case k) = Ok (VJson v).
Proof.
  intros data Hplain Hpost Ho.
  assert (∃ c, c ≠ Order ∧
            for_each (λ '(k, x) self, setattr self (to_snake_case k) (VJson x))
              data (new c) = Ok o) as (c & Hc & Hrun).
  { destruct Ho as [[_ Ho]%construct_Ok|[_ Ho]%construct_Ok];
      [exists Transfer|exists Volume]; done. }
  destruct (field_loop_last pre post k v (new c) o Hplain Hpost Hrun)
    as (Hcls & Hfree & Hv).
  simpl in Hcls, Hfree.
  apply getattr_stored; rewrite ?Hcls; auto.
Qed.

(** X2: A populated [PartialOrder] gives back what it was given: with 2 or more
    keys, none normalised to [__dict__], the value of a key reads back
    unchanged under the normalised name when no later key is normalised to
    the same name. *)
Theorem PartialOrder_read_back (pre post : kwargs) (k : string) (v : json) o :
  let data := (pre ++ (k, v) :: post)%list in
  (2 ≤ List.length data)%nat →
  (∀ k', k' ∈ data.*1 → to_snake_case k' ≠ "__dict__") →
  (∀ k', k' ∈ post.*1 → to_snake_case k' ≠ to_snake_case k) →
  construct PartialOrder (PartialOrder_init to_snake_case) data = Ok o →
  getattr o (to_snake_case k) = Ok (VJson v).
Proof.
  intros data Hlen Hplain Hpost [_ Ho]%construct_Ok.
  rewrite PartialOrder_init_populated in Ho by done.
  apply bind_Ok in Ho as (s1 & H1 & H2).
  apply Transfer_init_cls in H1. simpl in H1.
  destruct (field_loop_last pre post k v s1 o Hplain Hpost H2)
    as (Hcls & Hfree & Hv).
  rewrite H1 in Hcls, Hfree.
  apply getattr_stored; rewrite ?Hcls; auto.
Qed.

(** What [Order.__init__] runs its own loop on, for 2 or more keys none of
    which is normalised to a reserved name. *)
Lemma Order_init_loop (data : kwargs) o :
  (2 ≤ List.length data)%nat →
  Forall (λ k, to_snake_case k ∉ reserved) data.*1 →
  construct Order (Order_init to_snake_case) data = Ok o →
  ∃ s1,
    cls s1 = Order ∧
    for_each
      (λ '(k, x) self,
         if decide (k = "validity") then
           d ← unpack_mapping x;
           o ← construct Validity Validity_init d;
           setattr self k (to_value o)
         else if decide (k = "volumes") then
           d ← unpack_mapping x;
           o ← construct Volume (Volume_init to_snake_case) d;
           setattr self k (to_value o)
         else setattr self (to_snake_case k) (VJson x))
      data s1 = Ok o.
Proof.
  intros Hlen Hres [_ Ho]%construct_Ok.
  pose proof (unreserved to_snake_case data Hres) as Hne.
  assert ("__dict__" ∈ reserved) as Hdict by (by left).
  assert (raw_slot ∈ reserved) as Hraw by (by right; left).
  assert ("_is_error" ∈ reserved) as Hmeth by (by right; right; left).
  unfold Order_init in Ho. apply bind_Ok in Ho as (s1 & H1 & Ho).
  destruct (PartialOrder_init_attrs to_snake_case Order data s1)
    as (Hcls & Hother & _); [done|done|by apply Hne|done|].
  assert (self_is_error s1 (Some data) = Ok false) as Herr.
  { apply is_error_by_count; [by rewrite Hcls| |done|].
    - rewrite Hother; [reflexivity|by apply Hne].
    - rewrite Hother; [reflexivity|by apply Hne]. }
  rewrite Herr in Ho. simpl in Ho. eauto.
Qed.

(** X3: A populated [Order] gives back its plain fields: with 2 or more keys,
    none normalised to a reserved name, the value of a key other than
    [validity] and [volumes] reads back unchanged under the normalised
    name, when that name is not [is_idempotent] and no later key binds
    it. *)
Theorem Order_read_back (pre post : kwargs) (k : string) (v : json) o :
  let data := (pre ++ (k, v) :: post)%list in
  (2 ≤ List.length data)%nat →
  Forall (λ k, to_snake_case k ∉ reserved) data.*1 →
  k ≠ "validity" → k ≠ "volumes" →
  to_snake_case k ≠ "is_idempotent" →
  (∀ k', k' ∈ post.*1 → Order_field to_snake_case k' ≠ to_snake_case k) →
  construct Order (Order_init to_snake_case) data = Ok o →
  getattr o (to_snake_case k) = Ok (VJson v).
Proof.
  intros data Hlen Hres Hvalidity Hvolumes Hhidden Hpost Ho.
  destruct (Order_init_loop data o Hlen Hres Ho) as (s1 & Hcls1 & Hrun).
  assert (∀ k', k' ∈ data.*1 → to_snake_case k' ≠ "__dict__") as Hplain.
  { apply (unreserved to_snake_case data Hres). by left. }
  pose proof (Order_loop_assigns to_snake_case data Hplain) as Hloop.
  assert (Order_field to_snake_case k = to_snake_case k) as Hfield.
  { unfold Order_field. by rewrite !decide_False. }
  assert (to_snake_case k ≠ "__dict__") as Hk.
  { apply Hplain. unfold data. rewrite fmap_app, fmap_cons.
    apply elem_of_app. right. by left. }
  assert (cls o = Order) as Hcls.
  { rewrite (assigns_cls Hloop _ _ Hrun). done. }
  apply getattr_stored; [| by right |].
  - pose proof Hrun as Hround.
    eapply (for_each_rounds_inv (λ t, cls t = Order)) with (x := (k, v))
      in Hround as (t & t' & Ht & Hround).
    + simpl in Hround. rewrite !decide_False in Hround by done.
      rewrite Hcls, <- Ht. by eapply setattr_Ok_free.
    + intros [k' x'] t t' Hin Ht Hbody.
      destruct (Hloop k' x' t t' Hin Hbody) as [-> _]. done.
    + done.
    + apply elem_of_app. right. by left.
  - rewrite <- Hfield.
    apply (assigns_last _ _ pre post k v (VJson v) s1 o Hloop); [| |done].
    + intros k' Hk'. rewrite Hfield. by apply Hpost.
    + intros t t' Hbody. simpl in Hbody.
      rewrite !decide_False in Hbody by done.
      rewrite Hfield, (setattr_attrs _ _ _ _ Hk Hbody).
      by rewrite lookup_insert_eq.
Qed.

(** X4: The raw mapping is retained: on every object [PartialOrder] or [Order]
    returns, placeholder or populated, the property [json] returns the
    mapping the constructor was given, provided no key is normalised to
    [__dict__] or to the name the mapping is kept under. *)
Theorem raw_mapping_is_retained (data : kwargs) o :
  (∀ k, k ∈ data.*1 →
        to_snake_case k ≠ "__dict__" ∧ to_snake_case k ≠ raw_slot) →
  construct PartialOrder (PartialOrder_init to_snake_case) data = Ok o ∨
  construct Order (Order_init to_snake_case) data = Ok o →
  getattr o "json" = Ok (VJson (JObject data)).
Proof.
  intros Hplain Ho.
  assert (has_json (cls o) = true ∧
          attrs o !! raw_slot = Some (VJson (JObject data))) as [Hc Hraw].
  { destruct (decide (List.length data < 2)%nat) as [Hlen|Hlen].
    - destruct Ho as [[_ Ho]%construct_Ok|[_ Ho]%construct_Ok].
      + rewrite PartialOrder_init_placeholder in Ho by done.
        injection Ho as <-. done.
      + rewrite Order_init_placeholder in Ho by done.
        injection Ho as <-. done.
    - destruct Ho as [[_ Ho]%construct_Ok|[_ Ho]%construct_Ok].
      + destruct (PartialOrder_init_attrs to_snake_case PartialOrder data o)
          as (Hcls & Hother & _);
          [done|lia|by intros ? [? ?]%Hplain|done|].
        rewrite Hcls. split; [done|].
        rewrite Hother; [reflexivity|by intros ? [? ?]%Hplain].
      + destruct (Order_init_attrs to_snake_case data o)
          as (Hcls & Hother & _); [lia|by intros ? [? ?]%Hplain|done|].
        rewrite Hcls. split; [done|].
        rewrite Hother; [reflexivity|by intros ? [? ?]%Hplain|done|done]. }
  rewrite getattr_json by done. unfold PartialOrder_json.
  by rewrite getattr_raw_slot, Hraw.
Qed.

(** X5: In a populated [Order] the key [validity] is never kept as the mapping
    it came as: with 2 or more keys, none normalised to a reserved name, and
    no later key binding [validity], the value is a JSON object from which
    [Validity] has been constructed, and the attribute is that instance. *)
Theorem Order_validity_is_a_Validity (pre post : kwargs) (x : json) o :
  let data := (pre ++ ("validity", x) :: post)%list in
  (2 ≤ List.length data)%nat →
  Forall (λ k, to_snake_case k ∉ reserved) data.*1 →
  (∀ k', k' ∈ post.*1 → Order_field to_snake_case k' ≠ "validity") →
  construct Order (Order_init to_snake_case) data = Ok o →
  ∃ d ov, x = JObject d ∧
          construct Validity Validity_init d = Ok ov ∧
          getattr o "validity" = Ok (to_value ov).
Proof.
  intros data Hlen Hres Hpost Ho.
  destruct (Order_init_loop data o Hlen Hres Ho) as (s1 & Hcls1 & Hrun).
  assert (∀ k', k' ∈ data.*1 → to_snake_case k' ≠ "__dict__") as Hplain.
  { apply (unreserved to_snake_case data Hres). by left. }
  pose proof (Order_loop_assigns to_snake_case data Hplain) as Hloop.
  assert (cls o = Order) as Hcls.
  { rewrite (assigns_cls Hloop _ _ Hrun). done. }
  pose proof Hrun as Hround.
  apply (for_each_rounds _ _ ("validity", x)) in Hround
    as (t & t' & Hround); [|apply elem_of_app; right; by left].
  simpl in Hround.
  apply bind_Ok in Hround as (d & Hd & Hround).
  apply bind_Ok in Hround as (ov & Hov & _).
  destruct x; simpl in Hd; try discriminate. injection Hd as ->.
  exists d, ov. split; [done|]. split; [done|].
  apply getattr_stored; [by rewrite Hcls|by right|].
  change "validity" with (Order_field to_snake_case "validity").
  apply (assigns_last _ _ pre post "validity" (JObject d) (to_value ov)
           s1 o Hloop Hpost); [|done].
  intros u u' Hbody. simpl in Hbody. rewrite Hov in Hbody. simpl in Hbody.
  apply setattr_attrs in Hbody; [|discriminate].
  rewrite Hbody. by rewrite lookup_insert_eq.
Qed.

(** X6: In a populated [Order] the key [volumes] is never kept as the mapping
    it came as: with 2 or more keys, none normalised to a reserved name, and
    no later key binding [volumes], the value is a JSON object from which
    [Volume] has been constructed, and the attribute is that instance. *)
Theorem Order_volumes_is_a_Volume (pre post : kwargs) (x : json) o :
  let data := (pre ++ ("volumes", x) :: post)%list in
  (2 ≤ List.length data)%nat →
  Forall (λ k, to_snake_case k ∉ reserved) data.*1 →
  (∀ k', k' ∈ post.*1 → Order_field to_snake_case k' ≠ "volumes") →
  construct Order (Order_init to_snake_case) data = Ok o →
  ∃ d ov, x = JObject d ∧
          construct Volume (Volume_init to_snake_case) d = Ok ov ∧
          getattr o "volumes" = Ok (to_value ov).
Proof.
  intros data Hlen Hres Hpost Ho.
  destruct (Order_init_loop data o Hlen Hres Ho) as (s1 & Hcls1 & Hrun).
  assert (∀ k', k' ∈ data.*1 → to_snake_case k' ≠ "__dict__") as Hplain.
  { apply (unreserved to_snake_case data Hres). by left. }
  pose proof (Order_loop_assigns to_snake_case data Hplain) as Hloop.
  assert (cls o = Order) as Hcls.
  { rewrite (assigns_cls Hloop _ _ Hrun). done. }
  pose proof Hrun as Hround.
  apply (for_each_rounds _ _ ("volumes", x)) in Hround
    as (t & t' & Hround); [|apply elem_of_app; right; by left].
  simpl in Hround.
  apply bind_Ok in Hround as (d & Hd & Hround).
  apply bind_Ok in Hround as (ov & Hov & _).
  destruct x; simpl in Hd; try discriminate. injection Hd as ->.
  exists d, ov. split; [done|]. split; [done|].
  apply getattr_stored; [by rewrite Hcls|by right|].
  change "volumes" with (Order_field to_snake_case "volumes").
  apply (assigns_last _ _ pre post "volumes" (JObject d) (to_value ov)
           s1 o Hloop Hpost); [|done].
  intros u u' Hbody. simpl in Hbody. rewrite Hov in Hbody. simpl in Hbody.
  apply setattr_attrs in Hbody; [|discriminate].
  rewrite Hbody. by rewrite lookup_insert_eq.
Qed.

(** X7: No [Order] is returned for 2 or more keys when [validity] or [volumes]
    is anything but a JSON object: the constructor raises. *)
Theorem Order_nested_value_must_be_a_mapping (data : kwargs) (k : string)
    (x : json) :
  (2 ≤ List.length data)%nat →
  Forall (λ k, to_snake_case k ∉ reserved) data.*1 →
  k = "validity" ∨ k = "volumes" →
  (k, x) ∈ data →
  (∀ d, x ≠ JObject d) →
  ∃ e, construct Order (Order_init to_snake_case) data = Raise e.
Proof.
  intros Hlen Hres Hk Hin Hx.
  destruct (construct Order (Order_init to_snake_case) data) as [o|e] eqn:Ho;
    [|eauto].
  exfalso.
  destruct (Order_init_loop data o Hlen Hres Ho) as (s1 & _ & Hrun).
  apply (for_each_rounds _ _ (k, x)) in Hrun as (t & t' & Hround); [|done].
  simpl in Hround.
  destruct Hk as [->| ->]; simpl in Hround;
    apply bind_Ok in Hround as (d & Hd & _);
    destruct x; simpl in Hd; try discriminate; by eapply Hx.
Qed.

End read_back.

(** *** [Validity] *)



End order_more_spec.

(** ** [order.py]: the order book *)
Module book_more_spec.
Import py py_facts order order_facts loop_facts order_more book_spec.

Section books.
Context (to_snake_case : string → string).

Lemma OrderBook_loop_assigns (data : kwargs) :
  (∀ k, k ∈ data.*1 → OrderBook_field to_snake_case k ≠ "__dict__") →
  assigns (OrderBook_field to_snake_case)
    (λ '(k, x) self,
       if decide (k = "asks") then
         asks ← book_orders Ask x;
         setattr self (to_snake_case k) (VList asks)
       else if decide (k = "bids") then
         bids ← book_orders Bid x;
         setattr self (to_snake_case k) (VList bids)
       else if decide (k = "timestamp") then
         t ← fromtimestamp_ms x;
         setattr self k t
       else setattr self (to_snake_case k) (VJson x))
    data.
Proof.
  intros Hplain k x s s' Hin Hbody. simpl in Hbody.
  assert (OrderBook_field to_snake_case k ≠ "__dict__") as Hfield.
  { apply Hplain. apply list_elem_of_fmap. by exists (k, x). }
  unfold OrderBook_field in *.
  repeat case_decide; subst; try discriminate.
  - apply bind_Ok in Hbody as (l & _ & Hbody).
    split; [by eapply setattr_cls|]. eexists. by eapply setattr_attrs.
  - apply bind_Ok in Hbody as (l & _ & Hbody).
    split; [by eapply setattr_cls|]. eexists. by eapply setattr_attrs.
  - apply bind_Ok in Hbody as (t & _ & Hbody).
    split; [by eapply setattr_cls|]. eexists. by eapply setattr_attrs.
  - split; [by eapply setattr_cls|]. eexists. by eapply setattr_attrs.
Qed.

(** One instance per array, in the order of the arrays. *)
Lemma book_orders_entries c (arrays : list json) (ls : list level) :
  Forall2 reads_as arrays ls →
  book_orders c (JList arrays) = Ok (entry c <$> ls).
Proof.
  intros Hall. unfold book_orders. simpl.
  induction Hall as [|a l arrays ls (s & v & q & Ha & Hs & Hv & Hq) _ IH];
    [done|].
  cbn [collect]. rewrite Ha. cbn [mbind result_bind].
  rewrite (_OrderBookOrder_init_fields c (level_price l) s v q _ _ _ Hs Hv Hq).
  cbn [mbind result_bind]. rewrite IH. reflexivity.
Qed.

(** What [_OrderBookOrder.__init__] returns, it returns for four items of
    which the last three are integers to [int]. *)
Lemma _OrderBookOrder_init_Ok c (args : list json) o :
  _OrderBookOrder_init (new c) args = Ok o →
  ∃ l size volume quantity,
    args = [level_price l; size; volume; quantity] ∧
    int size = Ok (level_size l) ∧ int volume = Ok (level_volume l) ∧
    int quantity = Ok (level_quantity l) ∧
    to_value o = entry c l.
Proof.
  intros Ho.
  destruct args as [|price [|size [|volume [|quantity [|? ?]]]]];
    try discriminate.
  destruct (int quantity) as [q|e] eqn:Hq;
    [|unfold _OrderBookOrder_init in Ho; rewrite Hq in Ho; discriminate].
  destruct (int size) as [s|e] eqn:Hs;
    [|unfold _OrderBookOrder_init in Ho; rewrite Hq, Hs in Ho; discriminate].
  destruct (int volume) as [v|e] eqn:Hv;
    [|unfold _OrderBookOrder_init in Ho; rewrite Hq, Hs, Hv in Ho;
      discriminate].
  rewrite (_OrderBookOrder_init_fields c price size volume quantity s v q)
    in Ho by done.
  injection Ho as <-.
  exists (Level price s v q), size, volume, quantity. done.
Qed.

Lemma collect_entries c (arrays : list json) (os : list value) :
  collect
    (λ a, args ← iterate a;
          o ← _OrderBookOrder_init (new c) args;
          Ok (to_value o))
    arrays = Ok os →
  ∃ ls, Forall2 reads_as arrays ls ∧ os = entry c <$> ls.
Proof.
  revert os. induction arrays as [|a arrays IH]; intros os; simpl.
  - intros [= <-]. exists []. split; [constructor|done].
  - intros Hrun. apply bind_Ok in Hrun as (o & Ho & Hrun).
    apply bind_Ok in Hrun as (os' & Hos & [= <-]).
    destruct (IH os' Hos) as (ls & Hls & ->).
    apply bind_Ok in Ho as (args & Hargs & Ho).
    apply bind_Ok in Ho as (i & Hi & [= <-]).
    destruct (_OrderBookOrder_init_Ok c args i Hi)
      as (l & size & volume & quantity & -> & Hs & Hv & Hq & ->).
    exists (l :: ls). split; [|done].
    constructor; [|done]. exists size, volume, quantity. done.
Qed.

(** A list the loop has built reads back level by level. *)
Lemma book_orders_Ok c (x : json) (os : list value) :
  book_orders c x = Ok os →
  ∃ arrays ls, iterate x = Ok arrays ∧ Forall2 reads_as arrays ls ∧
               os = entry c <$> ls.
Proof.
  unfold book_orders. intros Hrun.
  apply bind_Ok in Hrun as (arrays & Harrays & Hrun).
  destruct (collect_entries c arrays os Hrun) as (ls & Hls & ->). eauto.
Qed.

(** The attribute only one entry of the mapping binds. *)
Lemma assigns_only field body (data : kwargs) k x n w s s' :
  assigns field body data →
  (k, x) ∈ data → field k = n →
  (∀ k' x', (k', x') ∈ data → field k' = n → (k', x') = (k, x)) →
  (∀ t t', body (k, x) t = Ok t' → attrs t' !! n = Some w) →
  for_each body data s = Ok s' → attrs s' !! n = Some w.
Proof.
  intros Hassigns Hin Hfield Honly Hround Hrun.
  apply (for_each_reaches (λ t, attrs t !! n = Some w) body data (k, x) Hin)
    in Hrun; [done|done|].
  intros [k' x'] t t' Hin' Ht Hbody.
  destruct (decide (field k' = n)) as [Hn|Hn].
  - rewrite (Honly k' x' Hin' Hn) in Hbody. by eapply Hround.
  - destruct (Hassigns k' x' t t' Hin' Hbody) as [_ [v ->]].
    by rewrite lookup_insert_ne.
Qed.

Lemma quantity_of_entry c (l : level) :
  quantity_of (entry c l) = Ok (VJson (JInt (level_quantity l))).
Proof. destruct c; reflexivity. Qed.

Lemma quantities_of_entries c (ls : list level) :
  Forall2 (λ o q, quantity_of o = Ok (VJson (JInt q)))
    (entry c <$> ls) (level_quantity <$> ls).
Proof.
  induction ls as [|l ls IH]; simpl; constructor; [|done].
  apply quantity_of_entry.
Qed.

(** A book whose two sides are lists the constructor has built. *)
Lemma OrderBook_of_sides o (la lb : list level) :
  cls o = OrderBook →
  attrs o !! "asks" = Some (VList (entry Ask <$> la)) →
  attrs o !! "bids" = Some (VList (entry Bid <$> lb)) →
  getattr o "asks" = Ok (VList (entry Ask <$> la)) ∧
  getattr o "bids" = Ok (VList (entry Bid <$> lb)) ∧
  OrderBook_len o = Ok (total_quantity la + total_quantity lb).
Proof.
  intros Hcls Ha Hb. split; [|split].
  - apply getattr_stored; [by rewrite Hcls|left; by rewrite Hcls|done].
  - apply getattr_stored; [by rewrite Hcls|left; by rewrite Hcls|done].
  - apply (OrderBook_len_sum o _ _ _ _ Hcls Ha Hb);
      apply quantities_of_entries.
Qed.

(** X10: The order of a book is the order of the wire: from a mapping of [asks]
    and [bids] whose arrays each unpack to a price and three integers, and
    under a normaliser that leaves those two names alone, [OrderBook]
    returns a book with one [Ask] per ask array and one [Bid] per bid array,
    in the order given, carrying the four fields; its length is the sum of
    all the quantities. *)
Theorem OrderBook_keeps_the_order_of_the_levels (asks bids : list json)
    (la lb : list level) :
  to_snake_case "asks" = "asks" → to_snake_case "bids" = "bids" →
  Forall2 reads_as asks la → Forall2 reads_as bids lb →
  ∃ o,
    construct OrderBook (OrderBook_init to_snake_case)
      [("asks", JList asks); ("bids", JList bids)] = Ok o ∧
    getattr o "asks" = Ok (VList (entry Ask <$> la)) ∧
    getattr o "bids" = Ok (VList (entry Bid <$> lb)) ∧
    OrderBook_len o = Ok (total_quantity la + total_quantity lb).
Proof.
  intros Hasks Hbids Ha Hb.
  rewrite construct_plain
    by (apply (bool_decide_unpack _); vm_compute; exact I).
  unfold OrderBook_init. cbn -[book_orders].
  rewrite (book_orders_entries Ask asks la Ha). cbn -[book_orders].
  rewrite Hasks, (book_orders_entries Bid bids lb Hb).
  cbn -[book_orders]. rewrite Hbids.
  eexists. split; [reflexivity|].
  apply OrderBook_of_sides; reflexivity.
Qed.

(** X11: Whatever else the mapping holds, a book the constructor returns has
    read both sides level by level: where [asks] and [bids] are the only
    keys binding the attributes of those names, each of their arrays
    unpacked to a price and three integers, the attributes are the lists of
    the instances built from them in the order given, and the length of the
    book is the sum of all the quantities. *)
Theorem OrderBook_read_back (data : kwargs) (asks bids : json) o :
  to_snake_case "asks" = "asks" → to_snake_case "bids" = "bids" →
  (∀ k, k ∈ data.*1 → OrderBook_field to_snake_case k ≠ "__dict__") →
  (∀ k x, (k, x) ∈ data → OrderBook_field to_snake_case k = "asks" →
          (k, x) = ("asks", asks)) →
  (∀ k x, (k, x) ∈ data → OrderBook_field to_snake_case k = "bids" →
          (k, x) = ("bids", bids)) →
  ("asks", asks) ∈ data → ("bids", bids) ∈ data →
  construct OrderBook (OrderBook_init to_snake_case) data = Ok o →
  ∃ arrays_a arrays_b la lb,
    iterate asks = Ok arrays_a ∧ Forall2 reads_as arrays_a la ∧
    iterate bids = Ok arrays_b ∧ Forall2 reads_as arrays_b lb ∧
    getattr o "asks" = Ok (VList (entry Ask <$> la)) ∧
    getattr o "bids" = Ok (VList (entry Bid <$> lb)) ∧
    OrderBook_len o = Ok (total_quantity la + total_quantity lb).
Proof.
  intros Hasks Hbids Hplain Honly_a Honly_b Hin_a Hin_b [_ Ho]%construct_Ok.
  unfold OrderBook_init in Ho.
  pose proof (OrderBook_loop_assigns data Hplain) as Hloop.
  pose proof (assigns_cls Hloop _ _ Ho) as Hcls. simpl in Hcls.
  pose proof Ho as Hround_a.
  apply (for_each_rounds _ _ ("asks", asks)) in Hround_a
    as (t & t' & Hround_a); [|done].
  simpl in Hround_a. apply bind_Ok in Hround_a as (os_a & Hos_a & _).
  pose proof Ho as Hround_b.
  apply (for_each_rounds _ _ ("bids", bids)) in Hround_b
    as (u & u' & Hround_b); [|done].
  simpl in Hround_b. apply bind_Ok in Hround_b as (os_b & Hos_b & _).
  destruct (book_orders_Ok Ask asks os_a Hos_a)
    as (arrays_a & la & Hit_a & Hla & ->).
  destruct (book_orders_Ok Bid bids os_b Hos_b)
    as (arrays_b & lb & Hit_b & Hlb & ->).
  exists arrays_a, arrays_b, la, lb.
  split; [done|]. split; [done|]. split; [done|]. split; [done|].
  apply OrderBook_of_sides; [done| |].
  - apply (assigns_only _ _ data "asks" asks "asks" _ (new OrderBook) o Hloop);
      try done.
    intros v v' Hbody. simpl in Hbody. rewrite Hos_a in Hbody.
    simpl in Hbody. rewrite Hasks in Hbody.
    apply setattr_attrs in Hbody; [|discriminate].
    rewrite Hbody. by rewrite lookup_insert_eq.
  - apply (assigns_only _ _ data "bids" bids "bids" _ (new OrderBook) o Hloop);
      try done.
    intros v v' Hbody. simpl in Hbody. rewrite Hos_b in Hbody.
    simpl in Hbody. rewrite Hbids in Hbody.
    apply setattr_attrs in Hbody; [|discriminate].
    rewrite Hbody. by rewrite lookup_insert_eq.
Qed.

(** X12: A level that does not read as a price and three integers, because it
    has not exactly four items or [int] rejects one of the last three,
    keeps the whole book from being built: the constructor raises. *)
Theorem OrderBook_rejects_a_malformed_level (data : kwargs) (k : string)
    (x : json) (arrays : list json) (a : json) :
  k = "asks" ∨ k = "bids" →
  (k, x) ∈ data → iterate x = Ok arrays → a ∈ arrays →
  (∀ l, ¬ reads_as a l) →
  ∃ e, construct OrderBook (OrderBook_init to_snake_case) data = Raise e.
Proof.
  intros Hk Hin Harrays Ha Hbad.
  destruct (construct OrderBook (OrderBook_init to_snake_case) data)
    as [o|e] eqn:Ho; [|eauto].
  exfalso. apply construct_Ok in Ho as [_ Ho]. unfold OrderBook_init in Ho.
  apply (for_each_rounds _ _ (k, x)) in Ho as (t & t' & Hround); [|done].
  assert (∃ c os, book_orders c x = Ok os) as (c & os & Hos).
  { destruct Hk as [->| ->]; simpl in Hround;
      apply bind_Ok in Hround as (os & Hos & _); eauto. }
  destruct (book_orders_Ok c x os Hos) as (arrays' & ls & Hit & Hls & _).
  rewrite Harrays in Hit. injection Hit as <-.
  apply list_elem_of_lookup in Ha as [i Hi].
  destruct (Forall2_lookup_l _ _ _ _ _ Hls Hi) as (l & _ & Hl).
  by apply (Hbad l).
Qed.

(** X13: Without a key bound to [asks], the length of the book cannot be taken:
    [__len__] raises [AttributeError]. *)
Theorem OrderBook_len_needs_asks (data : kwargs) o :
  (∀ k, k ∈ data.*1 →
        OrderBook_field to_snake_case k ≠ "__dict__" ∧
        OrderBook_field to_snake_case k ≠ "asks") →
  construct OrderBook (OrderBook_init to_snake_case) data = Ok o →
  raises_AttributeError (OrderBook_len o).
Proof.
  intros Hplain [_ Ho]%construct_Ok. unfold OrderBook_init in Ho.
  assert (assigns (OrderBook_field to_snake_case) _ data) as Hloop
    by (apply OrderBook_loop_assigns; by intros ? [? ?]%Hplain).
  pose proof (assigns_cls Hloop _ _ Ho) as Hcls. simpl in Hcls.
  assert (attrs o !! "asks" = None) as Hasks.
  { rewrite (assigns_other Hloop "asks" (new OrderBook) o);
      [done|by intros ? [? ?]%Hplain|done]. }
  destruct o as [c d]. simpl in *. subst c.
  unfold OrderBook_len, getattr, object_getattribute, instance_or_type_attr.
  simpl. rewrite Hasks. simpl. by eexists.
Qed.

End books.

End book_more_spec.

(** ** [client.py]: the constructor and the requests *)
Module client_more_spec.
Import py py_facts order client client_spec client_more.

(** X14: A client the constructor returns is ready for use: nothing has been
    sent, its session is open, [handle_errors] is the argument, and its
    account id, API key and endpoint are truthy, each the value of the
    [config] mapping when that is truthy and the argument otherwise. *)
Theorem Client_init_gives_a_ready_client
    (account_id api_key endpoint handle_errors : json) (config : kwargs)
    log c log' :
  Client_init account_id api_key endpoint handle_errors config log
  = (Ok c, log') →
  log' = log ∧
  closed (_session c) = false ∧
  client.handle_errors c = handle_errors ∧
  truthy (client.account_id c) = true ∧
  truthy (client.api_key c) = true ∧
  truthy (client.endpoint c) = true ∧
  ∃ cfg a k e,
    getitem config "config" = Ok cfg ∧
    dict_get cfg "account_id" = Ok a ∧
    dict_get cfg "api_key" = Ok k ∧
    dict_get cfg "endpoint" = Ok e ∧
    client.account_id c = or_else a account_id ∧
    client.api_key c = or_else k api_key ∧
    client.endpoint c = or_else e endpoint.
Proof.
  unfold Client_init, mbind, io_bind, lift, raise, mret, io_ret.
  destruct (bind_keywords config) as [config'|?] eqn:Hbind; [|discriminate].
  apply bind_keywords_Ok in Hbind as [_ ->].
  destruct (getitem config "config") as [cfg|?]; [|discriminate].
  destruct (dict_get cfg "account_id") as [a|?] eqn:Hga; [|discriminate].
  destruct (truthy (or_else a account_id)) eqn:Ha; [|discriminate]. simpl.
  destruct (dict_get cfg "api_key") as [k|?] eqn:Hgk; [|discriminate].
  destruct (truthy (or_else k api_key)) eqn:Hk; [|discriminate]. simpl.
  destruct (dict_get cfg "endpoint") as [e|?] eqn:Hge; [|discriminate].
  destruct (truthy (or_else e endpoint)) eqn:He; [|discriminate]. simpl.
  intros [= <- <-]. simpl. repeat (split; [done|]).
  exists cfg, a, k, e. done.
Qed.

(** X15: The configuration takes precedence: with a [config] mapping whose
    account id, API key and endpoint are truthy, the constructor returns a
    client carrying those, whatever the three arguments are. *)
Theorem Client_init_prefers_the_config
    (account_id api_key endpoint handle_errors : json)
    (cfg rest : kwargs) (a k e : json) log :
  "self" ∉ rest.*1 →
  getitem cfg "account_id" = Ok a → truthy a = true →
  getitem cfg "api_key" = Ok k → truthy k = true →
  getitem cfg "endpoint" = Ok e → truthy e = true →
  Client_init account_id api_key endpoint handle_errors
    (("config", JObject cfg) :: rest) log
  = (Ok {| client.handle_errors := handle_errors;
           client.account_id := a;
           client.api_key := k;
           client.endpoint := e;
           _session := Session false |}, log).
Proof.
  intros Hself Ha Hta Hk Htk He Hte.
  unfold Client_init, mbind, io_bind, lift, raise, mret, io_ret.
  rewrite bind_keywords_plain.
  2:{ simpl. apply not_elem_of_cons. split; [discriminate|done]. }
  rewrite getitem_first. unfold dict_get. rewrite Ha, Hk, He.
  unfold or_else. rewrite Hta, Htk, Hte. simpl. by rewrite Hta, Htk, Hte.
Qed.

(** X16: A [config] that is not a mapping has no [get]: the constructor raises
    [AttributeError], whatever the other arguments. *)
Theorem Client_init_needs_a_mapping_for_config
    (account_id api_key endpoint handle_errors : json)
    (x : json) (rest : kwargs) log :
  "self" ∉ rest.*1 →
  (∀ cfg, x ≠ JObject cfg) →
  ∃ msg,
    Client_init account_id api_key endpoint handle_errors
      (("config", x) :: rest) log
    = (Raise (AttributeError msg), log).
Proof.
  intros Hself Hx.
  unfold Client_init, mbind, io_bind, lift, raise, mret, io_ret.
  rewrite bind_keywords_plain.
  2:{ simpl. apply not_elem_of_cons. split; [discriminate|done]. }
  rewrite getitem_first.
  destruct x; simpl; eauto. by destruct (Hx d).
Qed.

Section requests.
Context (STORAGE_ID ORDER ORDERS RELAYER_CURRENT_TIME : json)
        (to_snake_case : string → string)
        (respond : list request → request → result json).

(** X18: With [handle_errors] off, [get_next_storage_id] sends one request, to
    the endpoint followed by the path, with the API key for header and the
    account id and the token id for parameters, and returns or raises
    exactly what the answer decodes to, an error payload included:
    [raise_errors_in] has no say. *)
Theorem get_next_storage_id_unhandled
    (raise_errors_in : json → result unit) (self : Client)
    (sell_token_id : json) (base path : string) log :
  truthy sell_token_id = true →
  truthy (handle_errors self) = false →
  closed (_session self) = false →
  endpoint self = JStr base → STORAGE_ID = JStr path →
  let req :=
    Request (JStr (base +:+ path)) [("X-API-KEY", api_key self)]
      [("accountId", account_id self); ("sellTokenId", sell_token_id)] in
  get_next_storage_id STORAGE_ID raise_errors_in respond self sell_token_id log
  = (respond log req, (log ++ [req])%list).
Proof.
  intros Harg Hoff Hopen Hbase Hpath req. subst req.
  unfold get_next_storage_id, mbind, io_bind, lift, mret, io_ret, session_get.
  rewrite Harg, Hoff, Hopen, Hbase, Hpath. simpl.
  by destruct (respond _ _).
Qed.

(** X19: With [handle_errors] on, the error [raise_errors_in] finds in the
    answer is what [get_order_details] raises, after the request has been
    sent: no [Order] and no placeholder is built from an error the relayer
    reports. *)
Theorem get_order_details_raises_reported_errors
    (raise_errors_in : json → result unit) (self : Client)
    (orderhash : json) (base path : string) (content : json) (e : exn) log :
  truthy orderhash = true →
  truthy (handle_errors self) = true →
  closed (_session self) = false →
  endpoint self = JStr base → ORDER = JStr path →
  let req :=
    Request (JStr (base +:+ path)) [("X-API-KEY", api_key self)]
      [("accountId", account_id self); ("orderHash", orderhash)] in
  respond log req = Ok content →
  raise_errors_in content = Raise e →
  get_order_details ORDER raise_errors_in to_snake_case respond self
    orderhash log
  = (Raise e, (log ++ [req])%list).
Proof.
  intros Harg Hon Hopen Hbase Hpath req Hcontent Herr. subst req.
  unfold get_order_details, mbind, io_bind, lift, mret, io_ret, session_get.
  rewrite Harg, Hon, Hopen, Hbase, Hpath. simpl.
  by rewrite Hcontent, Herr.
Qed.

(** X20: With [handle_errors] off, an answer with fewer than 2 keys, as an error
    payload is, comes back from [get_order_details] as the placeholder
    [Order] that keeps it. *)
Theorem get_order_details_unhandled_error_is_a_placeholder
    (raise_errors_in : json → result unit) (self : Client)
    (orderhash : json) (base path : string) (payload : kwargs) log :
  truthy orderhash = true →
  truthy (handle_errors self) = false →
  closed (_session self) = false →
  endpoint self = JStr base → ORDER = JStr path →
  let req :=
    Request (JStr (base +:+ path)) [("X-API-KEY", api_key self)]
      [("accountId", account_id self); ("orderHash", orderhash)] in
  respond log req = Ok (JObject payload) →
  (List.length payload < 2)%nat → "self" ∉ payload.*1 →
  get_order_details ORDER raise_errors_in to_snake_case respond self
    orderhash log
  = (Ok (kept Order payload), (log ++ [req])%list).
Proof.
  intros Harg Hoff Hopen Hbase Hpath req Hcontent Hlen Hself. subst req.
  unfold get_order_details, mbind, io_bind, lift, mret, io_ret, session_get.
  rewrite Harg, Hoff, Hopen, Hbase, Hpath. simpl.
  rewrite Hcontent. simpl.
  rewrite order_facts.construct_plain by done.
  by rewrite order_build.Order_init_placeholder.
Qed.

(** X21: An answer that is not a JSON object cannot become an [Order]: when
    error handling lets it through, [get_order_details] raises
    [TypeError], the request having been sent. *)
Theorem get_order_details_needs_an_object
    (raise_errors_in : json → result unit) (self : Client)
    (orderhash : json) (base path : string) (content : json) log :
  truthy orderhash = true →
  closed (_session self) = false →
  endpoint self = JStr base → ORDER = JStr path →
  let req :=
    Request (JStr (base +:+ path)) [("X-API-KEY", api_key self)]
      [("accountId", account_id self); ("orderHash", orderhash)] in
  respond log req = Ok content →
  truthy (handle_errors self) = false ∨ raise_errors_in content = Ok () →
  (∀ d, content ≠ JObject d) →
  get_order_details ORDER raise_errors_in to_snake_case respond self
    orderhash log
  = (Raise (TypeError "argument after ** must be a mapping"),
     (log ++ [req])%list).
Proof.
  intros Harg Hopen Hbase Hpath req Hcontent Hpass Hshape. subst req.
  unfold get_order_details, mbind, io_bind, lift, mret, io_ret, session_get.
  rewrite Harg, Hopen, Hbase, Hpath. simpl. rewrite Hcontent.
  assert ((if truthy (handle_errors self) then raise_errors_in content
           else Ok ()) = Ok ()) as ->.
  { destruct Hpass as [-> | Hpass]; [done|].
    by destruct (truthy (handle_errors self)). }
  destruct content; simpl; try done. by destruct (Hshape d).
Qed.

(** X22: What [get_multiple_orders] sends is what it has printed, and neither
    holds an unspecified parameter: whatever the call returns or raises, it
    has printed at most once and sent at most one request, never a request
    without the print; the mapping printed holds the parameters that are
    truthy, in the order of the signature, under their wire names, so a
    zero bound, a zero offset or a filter left at [None] is absent; and the
    request carries exactly that mapping. *)
Theorem get_multiple_orders_sends_what_it_prints
    (raise_errors_in : json → result unit) (self : Client)
    (q : orders_query) w r w' :
  get_multiple_orders ORDERS raise_errors_in to_snake_case respond self q w
  = (r, w') →
  let params := filter (λ kv, truthy kv.2) (all_params self q) in
  Forall (λ kv, truthy kv.2 = true) params ∧
  params `sublist_of` all_params self q ∧
  ((sent w' = sent w ∧ printed w' = printed w) ∨
   (printed w' = (printed w ++ [params])%list ∧
    (sent w' = sent w ∨
     ∃ url, sent w'
            = (sent w ++ [Request url [("X-API-KEY", api_key self)] params])
                %list))).
Proof.
  intros Hrun params. split; [|split].
  - apply Forall_forall. intros kv [Hkv _]%list_elem_of_filter.
    by apply Is_true_true.
  - apply sublist_filter.
  - revert Hrun.
    unfold get_multiple_orders, mbind, console_bind, on_network, lift, print,
      session_get.
    fold params.
    destruct (concat (endpoint self) ORDERS) as [url|e]; simpl.
    2:{ intros [= <- <-]. left. done. }
    destruct (closed (_session self)); simpl.
    { intros [= <- <-]. right. simpl. split; [done|]. by left. }
    assert (∀ (m : result (list instance)),
              (let '(r0, log) := (m, (sent w ++ [Request url
                                  [("X-API-KEY", api_key self)] params])%list)
               in (r0, World log (printed w ++ [params])%list)) = (r, w') →
              printed w' = (printed w ++ [params])%list ∧
              (sent w' = sent w ∨
               ∃ url0, sent w'
                 = (sent w ++ [Request url0 [("X-API-KEY", api_key self)]
                                 params])%list)) as Hdone.
    { intros m [= <- <-]. simpl. split; [done|]. right. eauto. }
    destruct (respond _ _) as [content|e]; simpl.
    2:{ intros Hrun. right. by apply (Hdone (Raise e)). }
    destruct (if truthy (handle_errors self) then raise_errors_in content
              else Ok ()) as [[]|e]; simpl.
    2:{ intros Hrun. right. by apply (Hdone (Raise e)). }
    intros Hrun. right. by eapply Hdone.
Qed.

(** X23: The query of a call without arguments: on an open session of a client
    with a truthy account id, the one request carries the account id and
    the limit of 50, and nothing else. *)
Theorem get_multiple_orders_default_query
    (raise_errors_in : json → result unit) (self : Client)
    (base path : string) w :
  truthy (account_id self) = true →
  closed (_session self) = false →
  endpoint self = JStr base → ORDERS = JStr path →
  sent (get_multiple_orders ORDERS raise_errors_in to_snake_case respond self
          default_query w).2
  = (sent w ++
     [Request (JStr (base +:+ path)) [("X-API-KEY", api_key self)]
        [("accountId", account_id self); ("limit", JInt 50)]])%list.
Proof.
  intros Hid Hopen Hbase Hpath.
  unfold get_multiple_orders, mbind, console_bind, on_network, lift, print,
    session_get.
  rewrite Hbase, Hpath, Hopen. simpl.
  assert (filter (λ kv : string * json, truthy kv.2)
            (all_params self default_query)
          = [("accountId", account_id self); ("limit", JInt 50)]) as ->.
  { unfold all_params. simpl. rewrite filter_cons_True by (simpl; by rewrite Hid).
    f_equal. }
  destruct (respond _ _) as [content|e]; simpl; [|done].
  destruct (if truthy (handle_errors self) then raise_errors_in content
            else Ok ()) as [[]|e]; simpl; done.
Qed.

(** X24: An answer without [orders], as an error payload is, makes
    [get_multiple_orders] raise [KeyError] when error handling lets it
    through: unlike a single lookup, the listing has no placeholder. *)
Theorem get_multiple_orders_needs_orders
    (raise_errors_in : json → result unit) (self : Client)
    (q : orders_query) (base path : string) (payload : kwargs) w :
  closed (_session self) = false →
  endpoint self = JStr base → ORDERS = JStr path →
  let params := filter (λ kv, truthy kv.2) (all_params self q) in
  let req :=
    Request (JStr (base +:+ path)) [("X-API-KEY", api_key self)] params in
  respond (sent w) req = Ok (JObject payload) →
  truthy (handle_errors self) = false ∨
  raise_errors_in (JObject payload) = Ok () →
  "orders" ∉ payload.*1 →
  get_multiple_orders ORDERS raise_errors_in to_snake_case respond self q w
  = (Raise (KeyError "orders"),
     World (sent w ++ [req])%list (printed w ++ [params])%list).
Proof.
  intros Hopen Hbase Hpath params req Hcontent Hpass Hmissing.
  subst req params.
  unfold get_multiple_orders, mbind, console_bind, on_network, lift, print,
    session_get.
  rewrite Hbase, Hpath, Hopen. simpl. rewrite Hcontent. simpl.
  assert ((if truthy (handle_errors self)
           then raise_errors_in (JObject payload) else Ok ()) = Ok ()) as ->.
  { destruct Hpass as [-> | Hpass]; [done|].
    by destruct (truthy (handle_errors self)). }
  simpl. unfold mbind, result_bind. by rewrite getitem_missing.
Qed.

Lemma collect_iff {A B} (f : A → result B) xs ys :
  collect f xs = Ok ys ↔ Forall2 (λ x y, f x = Ok y) xs ys.
Proof.
  split.
  - revert ys. induction xs as [|x xs IH]; intros ys; simpl.
    + intros [= <-]. constructor.
    + intros Hrun. apply bind_Ok in Hrun as (y & Hy & Hrest).
      apply bind_Ok in Hrest as (ys' & Hys & [= <-]).
      constructor; [done|by apply IH].
  - induction 1 as [|x y xs ys Hxy _ IH]; simpl; [done|].
    rewrite Hxy. simpl. rewrite IH. done.
Qed.

(** X25: One [Order] per entry: where the answer holds a list under [orders] and
    error handling lets it through, [get_multiple_orders] returns a list
    exactly when every entry is a JSON object from which [Order] can be
    constructed, and the list is then those orders, entry by entry in the
    order of the answer. *)
Theorem get_multiple_orders_one_Order_per_entry
    (raise_errors_in : json → result unit) (self : Client)
    (q : orders_query) (base path : string) (payload : kwargs)
    (entries : list json) (os : list instance) w :
  closed (_session self) = false →
  endpoint self = JStr base → ORDERS = JStr path →
  let params := filter (λ kv, truthy kv.2) (all_params self q) in
  let req :=
    Request (JStr (base +:+ path)) [("X-API-KEY", api_key self)] params in
  respond (sent w) req = Ok (JObject payload) →
  truthy (handle_errors self) = false ∨
  raise_errors_in (JObject payload) = Ok () →
  getitem payload "orders" = Ok (JList entries) →
  (get_multiple_orders ORDERS raise_errors_in to_snake_case respond self q w).1
  = Ok os
  ↔ Forall2
      (λ entry o,
         ∃ d, entry = JObject d ∧
              construct Order (Order_init to_snake_case) d = Ok o)
      entries os.
Proof.
  intros Hopen Hbase Hpath params req Hcontent Hpass Horders.
  subst req params.
  unfold get_multiple_orders, mbind, console_bind, on_network, lift, print,
    session_get.
  rewrite Hbase, Hpath, Hopen. simpl. rewrite Hcontent. simpl.
  assert ((if truthy (handle_errors self)
           then raise_errors_in (JObject payload) else Ok ()) = Ok ()) as ->.
  { destruct Hpass as [-> | Hpass]; [done|].
    by destruct (truthy (handle_errors self)). }
  simpl. rewrite Horders. simpl.
  rewrite collect_iff. split.
  - intros Hall. eapply Forall2_impl; [exact Hall|].
    intros entry o Hbuild. simpl in Hbuild.
    destruct entry; simpl in Hbuild; try discriminate. eauto.
  - intros Hall. eapply Forall2_impl; [exact Hall|].
    intros entry o (d & -> & Hbuild). done.
Qed.

(** X26: [get_relayer_timestamp] returns what the answer holds under
    [timestamp], as it is; an answer without it, as an error payload is,
    makes it raise [KeyError] when error handling lets it through.  The
    request has neither header nor parameter. *)
Theorem get_relayer_timestamp_returns_the_field
    (raise_errors_in : json → result unit) (self : Client)
    (base path : string) (payload : kwargs) log :
  closed (_session self) = false →
  endpoint self = JStr base → RELAYER_CURRENT_TIME = JStr path →
  let req := Request (JStr (base +:+ path)) [] [] in
  respond log req = Ok (JObject payload) →
  truthy (handle_errors self) = false ∨
  raise_errors_in (JObject payload) = Ok () →
  get_relayer_timestamp RELAYER_CURRENT_TIME raise_errors_in respond self log
  = (getitem payload "timestamp", (log ++ [req])%list) ∧
  ("timestamp" ∉ payload.*1 →
   getitem payload "timestamp" = Raise (KeyError "timestamp")).
Proof.
  intros Hopen Hbase Hpath req Hcontent Hpass. subst req.
  split; [|apply getitem_missing].
  unfold get_relayer_timestamp, mbind, io_bind, lift, session_get.
  rewrite Hbase, Hpath, Hopen. simpl. rewrite Hcontent.
  assert ((if truthy (handle_errors self)
           then raise_errors_in (JObject payload) else Ok ()) = Ok ()) as ->.
  { destruct Hpass as [-> | Hpass]; [done|].
    by destruct (truthy (handle_errors self)). }
  done.
Qed.

End requests.

End client_more_spec.

(** ** The further properties on the payloads of [samples] *)
Module order_more_examples.
Import py py_facts order order_facts order_build order_more
  order_more_spec samples samples_more.

(** A property of every key of a given mapping, by enumeration. *)
Ltac for_every_key :=
  first
    [ apply (bool_decide_unpack _); vm_compute; exact I
    | apply Forall_forall; apply (bool_decide_unpack _); vm_compute;
      exact I ].

(** The object a constructor returns on a given mapping. *)
Ltac constructed o H :=
  match goal with
  | |- context [construct ?c ?init ?data] =>
      destruct (construct c init data) as [o|?] eqn:H;
      [|vm_compute in H; discriminate]
  end.

Lemma Transfer_and_Volume_read_back_witness :
  ∃ o, construct Volume (Volume_init helpers.to_snake_case) volumes_payload
       = Ok o ∧
       getattr o "quote_amount" = Ok (VJson (JStr "30")).
Proof.
  constructed o Ho. exists o. split; [reflexivity|].
  apply (Transfer_and_Volume_read_back helpers.to_snake_case
           (take 1 volumes_payload) (drop 2 volumes_payload)
           "quoteAmount" (JStr "30") o).
  - for_every_key.
  - for_every_key.
  - right. exact Ho.
Defined.

Lemma PartialOrder_read_back_witness :
  ∃ o, construct PartialOrder (PartialOrder_init helpers.to_snake_case)
         partial_order = Ok o ∧
       getattr o "client_order_id" = Ok (VJson (JStr "1")).
Proof.
  constructed o Ho. exists o. split; [reflexivity|].
  apply (PartialOrder_read_back helpers.to_snake_case
           (take 1 partial_order) (drop 2 partial_order)
           "clientOrderId" (JStr "1") o).
  - simpl. lia.
  - for_every_key.
  - for_every_key.
  - exact Ho.
Defined.

Lemma Order_read_back_witness :
  ∃ o, construct Order (Order_init helpers.to_snake_case) full_order = Ok o ∧
       getattr o "trade_channel" = Ok (VJson (JStr "MIXED")).
Proof.
  constructed o Ho. exists o. split; [reflexivity|].
  apply (Order_read_back helpers.to_snake_case
           (take 9 full_order) (drop 10 full_order)
           "tradeChannel" (JStr "MIXED") o).
  - simpl. lia.
  - for_every_key.
  - discriminate.
  - discriminate.
  - discriminate.
  - for_every_key.
  - exact Ho.
Defined.

Lemma raw_mapping_is_retained_witness :
  (∃ o, construct Order (Order_init helpers.to_snake_case) full_order = Ok o ∧
        getattr o "json" = Ok (VJson (JObject full_order))) ∧
  (∃ o, construct Order (Order_init helpers.to_snake_case) error_response
        = Ok o ∧
        getattr o "json" = Ok (VJson (JObject error_response))).
Proof.
  split.
  - constructed o Ho. exists o. split; [reflexivity|].
    apply (raw_mapping_is_retained helpers.to_snake_case full_order o).
    + for_every_key.
    + right. exact Ho.
  - constructed o Ho. exists o. split; [reflexivity|].
    apply (raw_mapping_is_retained helpers.to_snake_case error_response o).
    + for_every_key.
    + right. exact Ho.
Defined.

Lemma Order_validity_is_a_Validity_witness :
  ∃ o d ov,
    construct Order (Order_init helpers.to_snake_case) full_order = Ok o ∧
    JObject validity_payload = JObject d ∧
    construct Validity Validity_init d = Ok ov ∧
    getattr o "validity" = Ok (to_value ov).
Proof.
  constructed o Ho. exists o.
  destruct (Order_validity_is_a_Validity helpers.to_snake_case
              (take 7 full_order) (drop 8 full_order)
              (JObject validity_payload) o) as (d & ov & Hd & Hov & Hget).
  - simpl. lia.
  - for_every_key.
  - for_every_key.
  - exact Ho.
  - exists d, ov. split; [reflexivity|]. split; [exact Hd|].
    split; [exact Hov | exact Hget].
Defined.

Lemma Order_volumes_is_a_Volume_witness :
  ∃ o d ov,
    construct Order (Order_init helpers.to_snake_case) full_order = Ok o ∧
    JObject volumes_payload = JObject d ∧
    construct Volume (Volume_init helpers.to_snake_case) d = Ok ov ∧
    getattr o "volumes" = Ok (to_value ov).
Proof.
  constructed o Ho. exists o.
  destruct (Order_volumes_is_a_Volume helpers.to_snake_case
              (take 6 full_order) (drop 7 full_order)
              (JObject volumes_payload) o) as (d & ov & Hd & Hov & Hget).
  - simpl. lia.
  - for_every_key.
  - for_every_key.
  - exact Ho.
  - exists d, ov. split; [reflexivity|]. split; [exact Hd|].
    split; [exact Hov | exact Hget].
Defined.

Lemma Order_nested_value_must_be_a_mapping_witness :
  ∃ e, construct Order (Order_init helpers.to_snake_case)
         order_with_flat_validity = Raise e.
Proof.
  apply (Order_nested_value_must_be_a_mapping helpers.to_snake_case
           order_with_flat_validity "validity" (JInt 1567053242)).
  - simpl. lia.
  - for_every_key.
  - by left.
  - right. left.
  - discriminate.
Defined.


Lemma PartialOrder_returns_witness :
  ∃ o, construct PartialOrder (PartialOrder_init helpers.to_snake_case)
         partial_order = Ok o.
Proof.
  apply (PartialOrder_returns helpers.to_snake_case partial_order).
  - apply (bool_decide_unpack _). vm_compute. exact I.
  - for_every_key.
Defined.

End order_more_examples.

Module book_more_examples.
Import py py_facts order order_facts order_more book_more_spec
  samples samples_more.

(** The four strings of a level, read. *)
Lemma level_reads_as (price size volume quantity : string) (s v q : Z) :
  int (JStr size) = Ok s → int (JStr volume) = Ok v →
  int (JStr quantity) = Ok q →
  reads_as (level price size volume quantity) (Level (JStr price) s v q).
Proof.
  intros Hs Hv Hq. exists (JStr size), (JStr volume), (JStr quantity). done.
Defined.

Lemma OrderBook_keeps_the_order_of_the_levels_witness :
  ∃ o,
    construct OrderBook (OrderBook_init helpers.to_snake_case)
      [("asks", JList [level "100.5" "10" "200" "2"]);
       ("bids", JList [level "99.5" "5" "99" "1"; level "99.0" "7" "140" "3"])]
    = Ok o ∧
    getattr o "bids"
    = Ok (VList [entry Bid (Level (JStr "99.5") 5 99 1);
                 entry Bid (Level (JStr "99.0") 7 140 3)]) ∧
    OrderBook_len o = Ok 6.
Proof.
  destruct (OrderBook_keeps_the_order_of_the_levels helpers.to_snake_case
              [level "100.5" "10" "200" "2"]
              [level "99.5" "5" "99" "1"; level "99.0" "7" "140" "3"]
              [Level (JStr "100.5") 10 200 2]
              [Level (JStr "99.5") 5 99 1; Level (JStr "99.0") 7 140 3])
    as (o & Ho & _ & Hbids & Hlen).
  - reflexivity.
  - reflexivity.
  - repeat constructor; by apply level_reads_as.
  - repeat constructor; by apply level_reads_as.
  - exists o. done.
Defined.

(** The keys of [depth] that bind a given attribute. *)
Ltac only_binder :=
  let Hin := fresh in let Hfield := fresh in
  intros ? ? Hin Hfield;
  repeat (apply elem_of_cons in Hin as [Hin|Hin];
          [injection Hin as -> ->;
           first [reflexivity | vm_compute in Hfield; discriminate]|]);
  by apply elem_of_nil in Hin.

Lemma OrderBook_read_back_witness :
  ∃ o la lb,
    construct OrderBook (OrderBook_init helpers.to_snake_case) depth = Ok o ∧
    getattr o "asks" = Ok (VList (entry Ask <$> la)) ∧
    getattr o "bids" = Ok (VList (entry Bid <$> lb)) ∧
    OrderBook_len o = Ok (total_quantity la + total_quantity lb).
Proof.
  destruct (construct OrderBook (OrderBook_init helpers.to_snake_case) depth)
    as [o|?] eqn:Ho; [|vm_compute in Ho; discriminate].
  destruct (OrderBook_read_back helpers.to_snake_case depth
              (JList [level "100.5" "10" "200" "2"])
              (JList [level "99.5" "5" "99" "1"; level "99.0" "7" "140" "3"])
              o)
    as (_ & _ & la & lb & _ & _ & _ & _ & Hasks & Hbids & Hlen).
  - reflexivity.
  - reflexivity.
  - apply Forall_forall. apply (bool_decide_unpack _). vm_compute. exact I.
  - only_binder.
  - only_binder.
  - do 4 right. left.
  - do 3 right. left.
  - exact Ho.
  - exists o, la, lb. done.
Defined.

Lemma OrderBook_rejects_a_malformed_level_witness :
  ∃ e, construct OrderBook (OrderBook_init helpers.to_snake_case)
         book_quantity_second = Raise e.
Proof.
  apply (OrderBook_rejects_a_malformed_level helpers.to_snake_case
           book_quantity_second "bids"
           (JList [level "99.5" "1" "5" "99.5"])
           [level "99.5" "1" "5" "99.5"]
           (level "99.5" "1" "5" "99.5")).
  - by right.
  - right. left.
  - reflexivity.
  - left.
  - intros l (s & v & q & Hitems & _ & _ & Hq).
    injection Hitems as _ _ _ <-. discriminate.
Defined.

Lemma OrderBook_len_needs_asks_witness :
  ∃ o, construct OrderBook (OrderBook_init helpers.to_snake_case)
         book_without_sides = Ok o ∧
       raises_AttributeError (OrderBook_len o).
Proof.
  destruct (construct OrderBook (OrderBook_init helpers.to_snake_case)
              book_without_sides)
    as [o|?] eqn:Ho; [|vm_compute in Ho; discriminate].
  exists o. split; [reflexivity|].
  apply (OrderBook_len_needs_asks helpers.to_snake_case book_without_sides o).
  - apply Forall_forall. apply (bool_decide_unpack _). vm_compute. exact I.
  - exact Ho.
Defined.

End book_more_examples.

Module client_more_examples.
Import py py_facts order client client_spec client_more client_more_spec
  samples samples_more.

Lemma Client_init_gives_a_ready_client_witness :
  ∃ c, Client_init JNull JNull JNull (JBool true)
         [("config", JObject account)] [] = (Ok c, []) ∧
       closed (_session c) = false ∧
       truthy (client.account_id c) = true ∧
       truthy (client.api_key c) = true ∧
       truthy (client.endpoint c) = true.
Proof.
  destruct (Client_init JNull JNull JNull (JBool true)
              [("config", JObject account)] []) as [[c|?] log'] eqn:Hrun;
    [|vm_compute in Hrun; discriminate].
  destruct (Client_init_gives_a_ready_client JNull JNull JNull (JBool true)
              [("config", JObject account)] [] c log' Hrun)
    as (-> & Hopen & _ & Ha & Hk & He & _).
  exists c. done.
Defined.

Lemma Client_init_prefers_the_config_witness :
  Client_init (JInt 1) (JStr "other key") (JStr "https://uat2.loopring.io")
    (JBool true) [("config", JObject account)] []
  = (Ok open_client, []).
Proof.
  apply (Client_init_prefers_the_config
           (JInt 1) (JStr "other key") (JStr "https://uat2.loopring.io")
           (JBool true) account [] (JInt 12345) (JStr "sra1aavfa")
           (JStr "https://api3.loopring.io") []);
    first [reflexivity | apply not_elem_of_nil].
Defined.

Lemma Client_init_needs_a_mapping_for_config_witness :
  ∃ msg,
    Client_init (JInt 12345) (JStr "sra1aavfa")
      (JStr "https://api3.loopring.io") (JBool true)
      [("config", JStr "account.json")] []
    = (Raise (AttributeError msg), []).
Proof.
  apply (Client_init_needs_a_mapping_for_config
           (JInt 12345) (JStr "sra1aavfa") (JStr "https://api3.loopring.io")
           (JBool true) (JStr "account.json") [] []).
  - apply not_elem_of_nil.
  - discriminate.
Defined.

Lemma Client_init_missing_configuration_witness :
  Client_init JNull JNull JNull (JBool true)
    [("config", JObject [("account_id", JInt 12345)])] []
  = (Raise (InvalidArguments "Missing API Key from config."), []).
Proof.
  destruct (Client_init_missing_configuration JNull JNull JNull (JBool true)
              [("account_id", JInt 12345)] [] [])
    as (_ & Hkey & _); [apply not_elem_of_nil|].
  apply Hkey; reflexivity.
Defined.

Lemma get_next_storage_id_unhandled_witness :
  get_next_storage_id storage_id_path reports_unknown refusing_relayer
    unhandled_client (JInt 1) []
  = (Ok (JObject error_response),
     [Request (JStr "https://api3.loopring.io/api/v3/storageId")
        [("X-API-KEY", JStr "sra1aavfa")]
        [("accountId", JInt 12345); ("sellTokenId", JInt 1)]]).
Proof.
  apply (get_next_storage_id_unhandled storage_id_path refusing_relayer
           reports_unknown unhandled_client (JInt 1)
           "https://api3.loopring.io" "/api/v3/storageId" []);
    reflexivity.
Defined.

Lemma get_order_details_raises_reported_errors_witness :
  get_order_details order_path reports_unknown helpers.to_snake_case
    refusing_relayer open_client (JStr "0x13375450b4d1efb6f4b1575") []
  = (Raise (RuntimeError "UnknownError"),
     [Request (JStr "https://api3.loopring.io/api/v3/order")
        [("X-API-KEY", JStr "sra1aavfa")]
        [("accountId", JInt 12345);
         ("orderHash", JStr "0x13375450b4d1efb6f4b1575")]]).
Proof.
  apply (get_order_details_raises_reported_errors order_path
           helpers.to_snake_case refusing_relayer reports_unknown open_client
           (JStr "0x13375450b4d1efb6f4b1575")
           "https://api3.loopring.io" "/api/v3/order"
           (JObject error_response) (RuntimeError "UnknownError") []);
    reflexivity.
Defined.

Lemma get_order_details_unhandled_error_is_a_placeholder_witness :
  get_order_details order_path reports_unknown helpers.to_snake_case
    refusing_relayer unhandled_client (JStr "0x13375450b4d1efb6f4b1575") []
  = (Ok (kept Order error_response),
     [Request (JStr "https://api3.loopring.io/api/v3/order")
        [("X-API-KEY", JStr "sra1aavfa")]
        [("accountId", JInt 12345);
         ("orderHash", JStr "0x13375450b4d1efb6f4b1575")]]).
Proof.
  apply (get_order_details_unhandled_error_is_a_placeholder order_path
           helpers.to_snake_case refusing_relayer reports_unknown
           unhandled_client (JStr "0x13375450b4d1efb6f4b1575")
           "https://api3.loopring.io" "/api/v3/order" error_response []);
    first [reflexivity | simpl; lia
          | apply (bool_decide_unpack _); vm_compute; exact I].
Defined.

Lemma get_order_details_needs_an_object_witness :
  get_order_details order_path no_errors helpers.to_snake_case
    babbling_relayer open_client (JStr "0x13375450b4d1efb6f4b1575") []
  = (Raise (TypeError "argument after ** must be a mapping"),
     [Request (JStr "https://api3.loopring.io/api/v3/order")
        [("X-API-KEY", JStr "sra1aavfa")]
        [("accountId", JInt 12345);
         ("orderHash", JStr "0x13375450b4d1efb6f4b1575")]]).
Proof.
  apply (get_order_details_needs_an_object order_path
           helpers.to_snake_case babbling_relayer no_errors open_client
           (JStr "0x13375450b4d1efb6f4b1575")
           "https://api3.loopring.io" "/api/v3/order"
           (JStr "Bad Gateway") []);
    first [reflexivity | by right | discriminate].
Defined.

Lemma get_multiple_orders_sends_what_it_prints_witness :
  let run :=
    get_multiple_orders orders_path no_errors helpers.to_snake_case
      listing_relayer open_client market_query (World [] []) in
  let params :=
    [("accountId", JInt 12345); ("limit", JInt 50);
     ("market", JStr "LRC-ETH"); ("start", JInt 1699000000000)] in
  Forall (λ kv, truthy kv.2 = true) params ∧
  (sent run.2 = [] ∧ printed run.2 = [] ∨
   printed run.2 = [params] ∧
   (sent run.2 = [] ∨
    ∃ url, sent run.2
           = [Request url [("X-API-KEY", JStr "sra1aavfa")] params])).
Proof.
  intros run params.
  destruct (get_multiple_orders_sends_what_it_prints orders_path
              helpers.to_snake_case listing_relayer no_errors open_client
              market_query (World [] []) run.1 run.2)
    as (Htruthy & _ & Hsent).
  - exact (surjective_pairing run).
  - split; [exact Htruthy|exact Hsent].
Defined.

Lemma get_multiple_orders_default_query_witness :
  sent (get_multiple_orders orders_path no_errors helpers.to_snake_case
          listing_relayer open_client default_query (World [] [])).2
  = [Request (JStr "https://api3.loopring.io/api/v3/orders")
       [("X-API-KEY", JStr "sra1aavfa")]
       [("accountId", JInt 12345); ("limit", JInt 50)]].
Proof.
  apply (get_multiple_orders_default_query orders_path
           helpers.to_snake_case listing_relayer no_errors open_client
           "https://api3.loopring.io" "/api/v3/orders" (World [] []));
    reflexivity.
Defined.

Lemma get_multiple_orders_needs_orders_witness :
  (get_multiple_orders orders_path reports_unknown helpers.to_snake_case
     refusing_relayer unhandled_client default_query (World [] [])).1
  = Raise (KeyError "orders").
Proof.
  rewrite (get_multiple_orders_needs_orders orders_path
             helpers.to_snake_case refusing_relayer reports_unknown
             unhandled_client default_query
             "https://api3.loopring.io" "/api/v3/orders" error_response
             (World [] []));
    first [reflexivity | by left
          | apply (bool_decide_unpack _); vm_compute; exact I].
Defined.

Lemma get_multiple_orders_one_Order_per_entry_witness :
  ∃ o p,
    construct Order (Order_init helpers.to_snake_case) full_order = Ok o ∧
    construct Order (Order_init helpers.to_snake_case) partial_order = Ok p ∧
    (get_multiple_orders orders_path no_errors helpers.to_snake_case
       listing_relayer open_client default_query (World [] [])).1
    = Ok [o; p].
Proof.
  destruct (construct Order (Order_init helpers.to_snake_case) full_order)
    as [o|?] eqn:Ho; [|vm_compute in Ho; discriminate].
  destruct (construct Order (Order_init helpers.to_snake_case) partial_order)
    as [p|?] eqn:Hp; [|vm_compute in Hp; discriminate].
  exists o, p. split; [reflexivity|]. split; [reflexivity|].
  apply (get_multiple_orders_one_Order_per_entry orders_path
           helpers.to_snake_case listing_relayer no_errors open_client
           default_query "https://api3.loopring.io" "/api/v3/orders"
           [("totalNum", JInt 2);
            ("orders", JList [JObject full_order; JObject partial_order])]
           [JObject full_order; JObject partial_order] [o; p] (World [] []));
    try reflexivity.
  - by right.
  - repeat constructor; eexists; (split; [reflexivity|]); assumption.
Defined.

Lemma get_relayer_timestamp_returns_the_field_witness :
  get_relayer_timestamp time_path no_errors clock_relayer open_client []
  = (Ok (JInt 1700000000000),
     [Request (JStr "https://api3.loopring.io/api/v3/timestamp") [] []]) ∧
  get_relayer_timestamp time_path reports_unknown refusing_relayer
    unhandled_client []
  = (Raise (KeyError "timestamp"),
     [Request (JStr "https://api3.loopring.io/api/v3/timestamp") [] []]).
Proof.
  split.
  - apply (get_relayer_timestamp_returns_the_field time_path clock_relayer
             no_errors open_client "https://api3.loopring.io"
             "/api/v3/timestamp" [("timestamp", JInt 1700000000000)] []);
      first [reflexivity | by right].
  - destruct (get_relayer_timestamp_returns_the_field time_path
                refusing_relayer reports_unknown unhandled_client
                "https://api3.loopring.io" "/api/v3/timestamp"
                error_response [] eq_refl eq_refl eq_refl eq_refl
                (or_introl eq_refl)) as [Hrun Hmissing].
    rewrite Hrun, Hmissing; [reflexivity|].
    apply (bool_decide_unpack _). vm_compute. exact I.
Defined.

End client_more_examples.
